(** * websocketfs: a shallow embedding of the SFTP-over-WebSocket engine

    The development follows the TypeScript sources:
    - [NodePath]   : the POSIX flavour of Node's [path] module
                     (normalize, join, dirname), used by fs-safe.ts and
                     sftp-fuse.ts;
    - [SafeFs]     : fs-safe.ts, class SafeFilesystem;
    - [Channel]    : channel.ts, class WebSocketChannel;
    - [Client]     : sftp-client.ts, class SftpClientCore;
    - [Fuse]       : sftp-fuse.ts, class SftpFuse.

    JavaScript numbers are modelled as [Z] (with the 32-bit wrap-around
    written out where the source applies a bit operation), strings as
    [string], objects used as dictionaries as [gmap].  Callbacks are
    modelled by the values they are invoked with. *)

From Stdlib Require Import ZArith Ascii String List Lia Bool.
From stdpp Require Import gmap strings list sorting pretty.

Open Scope string_scope.
Open Scope Z_scope.
Open Scope list_scope.

(** [SftpCommandInfo] (sftp-client.ts): the context of a request, copied
    into the errors it produces.  [others] holds the remaining string
    fields ([oldPath], [newPath], [targetPath], [linkPath]) by name. *)
Record SftpCommandInfo := mkInfo {
  command : string;
  path : option string;
  handle : option (list Byte.byte);
  others : list (string * string)
}.

(** The error objects that travel through callbacks: a JavaScript [Error]
    with the optional fields the sources attach to it. *)
Record SftpError := mkSftpError {
  message : string;
  code : option string;
  errno : option Z;
  description : option string;
  nativeCode : option Z;
  level : option string;
  context : option SftpCommandInfo
}.

Definition mkError (message : string) (code : option string)
    (errno : option Z) (description : option string)
    (nativeCode : option Z) (level : option string) : SftpError :=
  mkSftpError message code errno description nativeCode level None.

(** [Error(msg)] / [new Error(msg)] *)
Definition Error (msg : string) : SftpError :=
  mkError msg None None None None None.

(* ===================================================================== *)
(** ** Node's [path] module (POSIX) *)
(* ===================================================================== *)

Module NodePath.

Definition slash : ascii := "/"%char.

(** [path.split("/")]: the segments between slashes (always non-empty). *)
Fixpoint segments (s : string) : list string :=
  match s with
  | EmptyString => [EmptyString]
  | String c s' =>
      if Ascii.eqb c slash then EmptyString :: segments s'
      else match segments s' with
           | seg :: rest => String c seg :: rest
           | [] => [String c EmptyString]
           end
  end.

(** One step of Node's [normalizeString]: [res] is the stack of kept
    segments, most recent first. *)
Definition normalizeStep (allowAboveRoot : bool)
    (res : list string) (seg : string) : list string :=
  if String.eqb seg "" || String.eqb seg "." then res
  else if String.eqb seg ".." then
    match res with
    | top :: rest =>
        if String.eqb top ".." then
          (if allowAboveRoot then ".." :: res else res)
        else rest
    | [] => if allowAboveRoot then [".."] else []
    end
  else seg :: res.

(** [segs.join("/")] *)
Fixpoint joinSlash (segs : list string) : string :=
  match segs with
  | [] => ""
  | [s] => s
  | s :: rest => s +:+ "/" +:+ joinSlash rest
  end.

Definition normalizeString (path : string) (allowAboveRoot : bool) : string :=
  joinSlash (rev (fold_left (normalizeStep allowAboveRoot) (segments path) [])).

Definition startsWithSlash (s : string) : bool :=
  match s with
  | String c _ => Ascii.eqb c slash
  | EmptyString => false
  end.

Fixpoint endsWithSlash (s : string) : bool :=
  match s with
  | EmptyString => false
  | String c EmptyString => Ascii.eqb c slash
  | String _ s' => endsWithSlash s'
  end.

(** [path.posix.normalize] *)
Definition normalize (path : string) : string :=
  if String.eqb path "" then "."
  else
    let isAbsolute := startsWithSlash path in
    let trailingSeparator := endsWithSlash path in
    let p := normalizeString path (negb isAbsolute) in
    if String.eqb p "" then
      (if isAbsolute then "/" else if trailingSeparator then "./" else ".")
    else
      let p := if trailingSeparator then p +:+ "/" else p in
      if isAbsolute then "/" +:+ p else p.

(** [path.posix.join(a, b)] *)
Definition join (a b : string) : string :=
  if String.eqb a "" then
    (if String.eqb b "" then "." else normalize b)
  else if String.eqb b "" then normalize a
  else normalize (a +:+ "/" +:+ b).

(** [path.posix.isAbsolute] *)
Definition isAbsolute (path : string) : bool := startsWithSlash path.

(** The backwards scan of [path.posix.dirname]: the loop
    [for (i = path.length - 1; i >= 1; --i)], entered at index [i]. *)
Fixpoint dirnameScan (path : string) (i : nat) (matchedSlash : bool)
  : option nat :=
  match i with
  | O => None
  | S i' =>
      match String.get i path with
      | Some c =>
          if Ascii.eqb c slash then
            (if matchedSlash then dirnameScan path i' matchedSlash
             else Some i)
          else dirnameScan path i' false
      | None => dirnameScan path i' matchedSlash
      end
  end.

(** [path.posix.dirname] *)
Definition dirname (path : string) : string :=
  if String.eqb path "" then "."
  else
    let hasRoot := startsWithSlash path in
    match dirnameScan path (String.length path - 1) true with
    | None => if hasRoot then "/" else "."
    | Some e =>
        if hasRoot && Nat.eqb e 1 then "//"
        else String.substring 0 e path
    end.

End NodePath.

(* ===================================================================== *)
(** ** fs-safe.ts: class SafeFilesystem *)
(* ===================================================================== *)

Module SafeFs.

(** [flags: string | number] *)
Inductive Flags :=
| FlagStr (s : string)
| FlagNum (n : Z).

(** [flags != "r"] (loose inequality: a number is compared with
    [Number("r")], which is NaN, so it always differs). *)
Definition flagsNotR (flags : Flags) : bool :=
  match flags with
  | FlagStr s => negb (String.eqb s "r")
  | FlagNum _ => true
  end.

Record IStats := mkStats {
  size : option Z;
  uid : option Z;
  gid : option Z;
  mode : option Z;
  atime : option Z;
  mtime : option Z
}.

Record IItem := mkItem {
  filename : string;
  longname : string;
  stats : IStats
}.

(** [delete attrs.uid; delete attrs.gid] *)
Definition stripUidGid (a : IStats) : IStats :=
  mkStats (size a) None None (mode a) (atime a) (mtime a).

Definition Buffer := list Byte.byte.

(** A handle of the underlying filesystem ([real: any], [null] until the
    open completes). *)
Definition RealHandle := option Z.

(** The calls the wrapper makes on the underlying [IFilesystem]. *)
Inductive FsCall :=
| FsOpen (path : string) (flags : Flags) (attrs : IStats)
| FsClose (h : RealHandle)
| FsRead (h : RealHandle) (length position : Z)
| FsWrite (h : RealHandle) (buffer : Buffer) (length position : Z)
| FsLstat (path : string)
| FsFstat (h : RealHandle)
| FsSetstat (path : string) (attrs : IStats)
| FsFsetstat (h : RealHandle) (attrs : IStats)
| FsOpendir (path : string)
| FsReaddir (h : RealHandle)
| FsUnlink (path : string)
| FsMkdir (path : string) (attrs : IStats)
| FsRmdir (path : string)
| FsRealpath (path : string)
| FsStat (path : string)
| FsRename (oldPath newPath : string) (flags : Z)
| FsReadlink (path : string)
| FsSymlink (oldPath newPath : string)
| FsLink (oldPath newPath : string)
| FsFcopy (fh : RealHandle) (fromPosition length : Z)
          (th : RealHandle) (toPosition : Z).

(** The values a callback of the underlying filesystem is invoked with
    after the error argument. *)
Inductive FsValue :=
| VNone
| VHandle (h : Z)
| VData (buffer : Buffer) (bytesRead : Z)
| VAttrs (attrs : IStats)
| VItems (items : list IItem)
| VEnd
| VPath (path : string).

Inductive Reply :=
| ReplyErr (e : SftpError)
| ReplyOk (v : FsValue).

(** What a method of the wrapper does with its caller: it invokes the
    callback, or throws. *)
Inductive Outcome :=
| Callback (r : Reply)
| Throws (e : SftpError).

Record HandleInfo := mkHandleInfo {
  safe : Z;
  real : RealHandle
}.

Record SafeFilesystem := mkSafe {
  calls : list FsCall;          (* calls received by [this.fs], oldest first *)
  isWindows : bool;
  root : string;
  readOnly : bool;
  hideUidGid : bool;
  _handles : gmap Z HandleInfo;
  _nextHandle : Z
}.

Definition MAX_HANDLE_COUNT : Z := 1024.
Definition MAX_WRITE_BLOCK_LENGTH : Z := 1024 * 1024.

(** The constructor; [readOnlyOpt] is [options.readOnly == true]. *)
Definition create (fsIsWindows : bool) (virtualRootPath : string)
    (readOnlyOpt hideUidGidOpt : bool) : SafeFilesystem :=
  mkSafe [] fsIsWindows (NodePath.normalize virtualRootPath)
         readOnlyOpt hideUidGidOpt ∅ 1.

Definition setCalls (s : SafeFilesystem) (c : list FsCall) :=
  mkSafe c (isWindows s) (root s) (readOnly s) (hideUidGid s)
         (_handles s) (_nextHandle s).
Definition setHandles (s : SafeFilesystem) (h : gmap Z HandleInfo) :=
  mkSafe (calls s) (isWindows s) (root s) (readOnly s) (hideUidGid s)
         h (_nextHandle s).
Definition setNextHandle (s : SafeFilesystem) (n : Z) :=
  mkSafe (calls s) (isWindows s) (root s) (readOnly s) (hideUidGid s)
         (_handles s) n.

(** *** Path translation *)

Definition backslash : ascii := "\"%char.

(** [path.replace(/\\/g, "/")] *)
Fixpoint replaceBackslashes (s : string) : string :=
  match s with
  | EmptyString => EmptyString
  | String c s' =>
      String (if Ascii.eqb c backslash then NodePath.slash else c)
             (replaceBackslashes s')
  end.

(** [s.substr(n)] *)
Definition substr (s : string) (n : nat) : string :=
  String.substring n (String.length s - n) s.

(** The [while (true)] loop of [toVirtualPath], entered with index [i];
    it runs at most [root.length + 1] times. *)
Fixpoint toVirtualPathLoop (fuel : nat) (root fullPath : string) (i : nat)
  : string :=
  match fuel with
  | O => "/"
  | S fuel' =>
      if (String.length root <=? i)%nat then substr fullPath (String.length root)
      else if (String.length fullPath <=? i)%nat then "/"
      else if negb (bool_decide (String.get i root = String.get i fullPath))
           then "/"
      else toVirtualPathLoop fuel' root fullPath (S i)
  end.

Definition toVirtualPath (s : SafeFilesystem) (fullPath : string) : string :=
  let path := toVirtualPathLoop (S (String.length (root s))) (root s) fullPath 0 in
  let path := if isWindows s then replaceBackslashes path else path in
  if (String.length path =? 0)%nat then "/" else path.

Definition toRealPath (s : SafeFilesystem) (path : string) : string :=
  let path := NodePath.join "/" path in
  NodePath.join (root s) path.

Definition isReadOnly (s : SafeFilesystem) : bool :=
  negb (bool_decide (readOnly s = false)).

(** [FileUtil.fail(message, callback)] with a callback.

    Modelled from the spec: fs-misc.ts (class FileUtil) is not among the
    sources; the operations "fail with EROFS", "ENFILE", ..., that is
    the callback receives an error carrying that text. *)
Definition fail (msg : string) : Outcome := Callback (ReplyErr (Error msg)).

(** *** Handle table *)

(** The [while (count-- > 0)] loop of [createHandleInfo]. *)
Fixpoint createHandleInfoLoop (count : nat) (s : SafeFilesystem)
  : SafeFilesystem * option HandleInfo :=
  match count with
  | O => (s, None)
  | S count' =>
      let safeHandle := _nextHandle s in
      let s := setNextHandle s (safeHandle mod MAX_HANDLE_COUNT + 1) in
      match _handles s !! safeHandle with
      | None =>
          let info := mkHandleInfo safeHandle None in
          (setHandles s (<[safeHandle := info]> (_handles s)), Some info)
      | Some _ => createHandleInfoLoop count' s
      end
  end.

Definition createHandleInfo (s : SafeFilesystem) :=
  createHandleInfoLoop (Z.to_nat MAX_HANDLE_COUNT) s.

Definition toHandleInfo (s : SafeFilesystem) (safeHandle : Z)
  : option HandleInfo := _handles s !! safeHandle.

Section Operations.

(** The underlying filesystem: its reply to a call, given the calls it
    has received before, and whether it implements [fcopy]. *)
Variable respond : list FsCall -> FsCall -> Reply.
Variable hasFcopy : bool.

(** [this.fs.<method>(..., callback)]: the call reaches the underlying
    filesystem, whose callback is modelled as completing at once. *)
Definition callFs (s : SafeFilesystem) (c : FsCall)
  : SafeFilesystem * Reply :=
  (setCalls s (calls s ++ [c]), respond (calls s) c).

Definition processCallbackPath (s : SafeFilesystem) (r : Reply) : Reply :=
  match r with
  | ReplyErr e => ReplyErr e
  | ReplyOk (VPath p) => ReplyOk (VPath (toVirtualPath s p))
  | ReplyOk _ => ReplyErr (Error "path must be set")
  end.

Definition processCallbackHandle (s : SafeFilesystem) (r : Reply)
    (handleInfo : HandleInfo) : SafeFilesystem * Reply :=
  let safeHandle := safe handleInfo in
  match r with
  | ReplyErr e =>
      (setHandles s (delete safeHandle (_handles s)), ReplyErr e)
  | ReplyOk v =>
      let realHandle := match v with VHandle h => Some h | _ => None end in
      (setHandles s (<[safeHandle := mkHandleInfo safeHandle realHandle]>
                       (_handles s)),
       ReplyOk (VHandle safeHandle))
  end.

Definition processCallbackAttrs (s : SafeFilesystem) (r : Reply) : Reply :=
  match r with
  | ReplyOk (VAttrs a) =>
      if hideUidGid s then ReplyOk (VAttrs (stripUidGid a)) else r
  | _ => r
  end.

(** [_execute(safeHandle, action, callback)].  Calls on the underlying
    filesystem complete at once in this model, so a handle is never
    found busy and the queue of deferred actions stays empty. *)
Definition _execute (s : SafeFilesystem) (safeHandle : Z)
    (action : SafeFilesystem -> RealHandle -> SafeFilesystem * Reply)
  : SafeFilesystem * Outcome :=
  match toHandleInfo s safeHandle with
  | None => (s, fail "Invalid handle")
  | Some handleInfo =>
      let '(s', r) := action s (real handleInfo) in (s', Callback r)
  end.

Definition open (s : SafeFilesystem) (path : string) (flags : Flags)
    (attrs : IStats) : SafeFilesystem * Outcome :=
  if isReadOnly s && flagsNotR flags then (s, fail "EROFS")
  else
    match createHandleInfo s with
    | (s, None) => (s, fail "ENFILE")
    | (s, Some handleInfo) =>
        let path := toRealPath s path in
        let '(s, r) := callFs s (FsOpen path flags attrs) in
        let '(s, r) := processCallbackHandle s r handleInfo in
        (s, Callback r)
    end.

Definition close (s : SafeFilesystem) (handle : Z)
  : SafeFilesystem * Outcome :=
  _execute s handle (fun s realHandle =>
    let s := setHandles s (delete handle (_handles s)) in
    callFs s (FsClose realHandle)).

Definition read (s : SafeFilesystem) (handle : Z) (length position : Z)
  : SafeFilesystem * Outcome :=
  _execute s handle (fun s h => callFs s (FsRead h length position)).

Definition write (s : SafeFilesystem) (handle : Z) (buffer : Buffer)
    (length position : Z) : SafeFilesystem * Outcome :=
  if isReadOnly s then (s, fail "EROFS")
  else _execute s handle (fun s h =>
         callFs s (FsWrite h buffer length position)).

Definition lstat (s : SafeFilesystem) (path : string)
  : SafeFilesystem * Outcome :=
  let path := toRealPath s path in
  let '(s, r) := callFs s (FsLstat path) in
  (s, Callback (if hideUidGid s then processCallbackAttrs s r else r)).

Definition setstat (s : SafeFilesystem) (path : string) (attrs : IStats)
  : SafeFilesystem * Outcome :=
  if isReadOnly s then (s, fail "EROFS")
  else
    let attrs := if hideUidGid s then stripUidGid attrs else attrs in
    let path := toRealPath s path in
    let '(s, r) := callFs s (FsSetstat path attrs) in
    (s, Callback r).

Definition fsetstat (s : SafeFilesystem) (handle : Z) (attrs : IStats)
  : SafeFilesystem * Outcome :=
  if isReadOnly s then (s, fail "EROFS")
  else
    let attrs := if hideUidGid s then stripUidGid attrs else attrs in
    _execute s handle (fun s h => callFs s (FsFsetstat h attrs)).

Definition unlink (s : SafeFilesystem) (path : string)
  : SafeFilesystem * Outcome :=
  if isReadOnly s then (s, fail "EROFS")
  else
    let path := toRealPath s path in
    let '(s, r) := callFs s (FsUnlink path) in (s, Callback r).

Definition mkdir (s : SafeFilesystem) (path : string) (attrs : IStats)
  : SafeFilesystem * Outcome :=
  if isReadOnly s then (s, fail "EROFS")
  else
    let path := toRealPath s path in
    let '(s, r) := callFs s (FsMkdir path attrs) in (s, Callback r).

Definition rmdir (s : SafeFilesystem) (path : string)
  : SafeFilesystem * Outcome :=
  if isReadOnly s then (s, fail "EROFS")
  else
    let path := toRealPath s path in
    let '(s, r) := callFs s (FsRmdir path) in (s, Callback r).

Definition realpath (s : SafeFilesystem) (path : string)
  : SafeFilesystem * Outcome :=
  let path := toRealPath s path in
  let '(s, r) := callFs s (FsRealpath path) in
  (s, Callback (processCallbackPath s r)).

Definition rename (s : SafeFilesystem) (oldPath newPath : string)
    (flags : Z) : SafeFilesystem * Outcome :=
  if isReadOnly s then (s, fail "EROFS")
  else
    let oldPath := toRealPath s oldPath in
    let newPath := toRealPath s newPath in
    let '(s, r) := callFs s (FsRename oldPath newPath flags) in
    (s, Callback r).

Definition readlink (s : SafeFilesystem) (path : string)
  : SafeFilesystem * Outcome :=
  let filePath := toRealPath s path in
  let '(s, r) := callFs s (FsReadlink filePath) in (s, Callback r).

Definition symlink (s : SafeFilesystem) (oldPath newPath : string)
  : SafeFilesystem * Outcome :=
  if isReadOnly s then (s, fail "EROFS")
  else
    let oldPath := toRealPath s oldPath in
    let newPath := if NodePath.isAbsolute newPath
                   then toRealPath s newPath else newPath in
    let '(s, r) := callFs s (FsSymlink oldPath newPath) in
    (s, Callback r).

Definition link (s : SafeFilesystem) (oldPath newPath : string)
  : SafeFilesystem * Outcome :=
  if isReadOnly s then (s, fail "EROFS")
  else
    let oldPath := toRealPath s oldPath in
    let newPath := toRealPath s newPath in
    let '(s, r) := callFs s (FsLink oldPath newPath) in
    (s, Callback r).

(** The inner function [copy] of [fcopy]: the read-then-write loop.
    [None] when the fuel runs out (a source that never ends). *)
Fixpoint copy (fuel : nat) (s : SafeFilesystem) (fh th : RealHandle)
    (length fromPosition toPosition : Z)
  : option (SafeFilesystem * Reply) :=
  match fuel with
  | O => None
  | S fuel' =>
      let blockSize := MAX_WRITE_BLOCK_LENGTH in
      let bytesToRead :=
        if 0 <=? length then Z.min blockSize length else blockSize in
      if bytesToRead =? 0 then Some (s, ReplyOk VNone)
      else
        let '(s, r) := callFs s (FsRead fh bytesToRead fromPosition) in
        match r with
        | ReplyErr e => Some (s, ReplyErr e)
        | ReplyOk v =>
            let '(buffer, bytesRead) :=
              match v with VData b n => (b, n) | _ => ([], 0) end in
            if bytesRead =? 0 then
              if length =? 0 then Some (s, ReplyOk VNone)
              else Some (s, ReplyErr (Error "EOF"))
            else
              let length :=
                if 0 <=? length then length - bytesRead else length in
              let fromPosition := fromPosition + bytesRead in
              let '(s, r) :=
                callFs s (FsWrite th buffer bytesRead toPosition) in
              match r with
              | ReplyErr e => Some (s, ReplyErr e)
              | ReplyOk _ =>
                  copy fuel' s fh th length fromPosition
                       (toPosition + bytesRead)
              end
        end
  end.

(** [fcopy]; both handles are acquired through [_execute] without a
    callback, so an invalid handle makes [FileUtil.fail] throw. *)
Definition fcopy (fuel : nat) (s : SafeFilesystem)
    (fromHandle fromPosition length toHandle toPosition : Z)
  : option (SafeFilesystem * Outcome) :=
  if isReadOnly s then Some (s, fail "EROFS")
  else
    let length := if 0 <? length then length else -1 in
    match toHandleInfo s fromHandle, toHandleInfo s toHandle with
    | Some fi, Some ti =>
        if hasFcopy then
          let '(s, r) :=
            callFs s (FsFcopy (real fi) fromPosition length
                              (real ti) toPosition) in
          Some (s, Callback r)
        else
          match copy fuel s (real fi) (real ti) length
                     fromPosition toPosition with
          | Some (s, r) => Some (s, Callback r)
          | None => None
          end
    | _, _ => Some (s, Throws (Error "Invalid handle"))
    end.

(** The operations of the wrapper that the read-only guard covers,
    with their arguments. *)
Inductive MutatingOp :=
| OpOpen (path : string) (flags : Flags) (attrs : IStats)
| OpWrite (handle : Z) (buffer : Buffer) (length position : Z)
| OpSetstat (path : string) (attrs : IStats)
| OpFsetstat (handle : Z) (attrs : IStats)
| OpUnlink (path : string)
| OpMkdir (path : string) (attrs : IStats)
| OpRmdir (path : string)
| OpRename (oldPath newPath : string) (flags : Z)
| OpSymlink (oldPath newPath : string)
| OpLink (oldPath newPath : string)
| OpFcopy (fromHandle fromPosition length toHandle toPosition : Z).

(** [open] is guarded only for flags other than ["r"]. *)
Definition guarded (op : MutatingOp) : bool :=
  match op with
  | OpOpen _ flags _ => flagsNotR flags
  | _ => true
  end.

Definition run (fuel : nat) (s : SafeFilesystem) (op : MutatingOp)
  : option (SafeFilesystem * Outcome) :=
  match op with
  | OpOpen p f a => Some (open s p f a)
  | OpWrite h b l pos => Some (write s h b l pos)
  | OpSetstat p a => Some (setstat s p a)
  | OpFsetstat h a => Some (fsetstat s h a)
  | OpUnlink p => Some (unlink s p)
  | OpMkdir p a => Some (mkdir s p a)
  | OpRmdir p => Some (rmdir s p)
  | OpRename o n f => Some (rename s o n f)
  | OpSymlink o n => Some (symlink s o n)
  | OpLink o n => Some (link s o n)
  | OpFcopy fh fp l th tp => fcopy fuel s fh fp l th tp
  end.

End Operations.

End SafeFs.

(* ===================================================================== *)
(** ** The packets on the wire (sftp-packet.ts, at field granularity) *)
(* ===================================================================== *)

Module Wire.

Definition Buffer := list Byte.byte.

(** A typed field of a packet body, as written by [SftpPacketWriter]
    and read back by [SftpPacketReader]. *)
Inductive Field :=
| FInt32 (v : Z)
| FInt64 (v : Z)
| FString (s : string)
| FData (d : Buffer).

(** [type: SftpPacketType | string]: a numeric packet type, or the name
    of an extension (sent as EXTENDED). *)
Inductive PacketType :=
| TNum (n : Z)
| TExt (name : string).

(** Modelled from the spec: sftp-enums.ts is not among the sources; the
    packet type codes are those of the table of packet types. *)
Definition INIT : Z := 1.
Definition VERSION : Z := 2.
Definition OPEN : Z := 3.
Definition CLOSE : Z := 4.
Definition READ : Z := 5.
Definition WRITE : Z := 6.
Definition LSTAT : Z := 7.
Definition REMOVE : Z := 13.
Definition MKDIR : Z := 14.
Definition RMDIR : Z := 15.
Definition REALPATH : Z := 16.
Definition STAT : Z := 17.
Definition RENAME : Z := 18.
Definition READLINK : Z := 19.
Definition SYMLINK : Z := 20.
Definition EXTENDED : Z := 200.
Definition STATUS : Z := 101.
Definition HANDLE : Z := 102.
Definition NAME : Z := 104.
Definition ATTRS : Z := 105.

(** A finished packet: what [SftpPacketWriter.start] and the field
    writers put after the length prefix.  [id] is absent for INIT and
    VERSION. *)
Record Packet := mkPacket {
  ptype : PacketType;
  pid : option Z;
  pbody : list Field
}.

(** [type == SftpPacketType.X] for a possibly non-numeric type. *)
Definition typeIs (t : PacketType) (n : Z) : bool :=
  match t with
  | TNum m => m =? n
  | TExt _ => false
  end.

(** The constructor of [SftpPacketReader] (not raw): INIT and VERSION
    carry no id; every other type is followed by a 32-bit id, and
    EXTENDED by the extension name.  [None] stands for the thrown
    "Unexpected end of packet". *)
Definition SftpPacketReader (rawType : Z) (fields : list Field)
  : option Packet :=
  if (rawType =? INIT) || (rawType =? VERSION) then
    Some (mkPacket (TNum rawType) None fields)
  else
    match fields with
    | FInt32 id :: rest =>
        if rawType =? EXTENDED then
          match rest with
          | FString name :: rest' => Some (mkPacket (TExt name) (Some id) rest')
          | _ => None
          end
        else Some (mkPacket (TNum rawType) (Some id) rest)
    | _ => None
    end.

(** [readInt32], [readString], [readData] on the remaining fields;
    strings and opaque data share one framing. *)
Definition readInt32 (fs : list Field) : option (Z * list Field) :=
  match fs with
  | FInt32 v :: rest => Some (v, rest)
  | _ => None
  end.

Definition readString (fs : list Field) : option (string * list Field) :=
  match fs with
  | FString s :: rest => Some (s, rest)
  | FData d :: rest => Some (string_of_list_byte d, rest)
  | _ => None
  end.

Definition readData (fs : list Field) : option (Buffer * list Field) :=
  match fs with
  | FData d :: rest => Some (d, rest)
  | FString s :: rest => Some (list_byte_of_string s, rest)
  | _ => None
  end.

End Wire.

(* ===================================================================== *)
(** ** channel.ts: class WebSocketChannel *)
(* ===================================================================== *)

Module Channel.

Record WebSocketChannel := mkChannel {
  established : bool;
  closed : bool;
  onclose : bool;                        (* a close listener is bound *)
  wsSent : list Wire.Packet;             (* [doSend] calls, oldest first *)
  wsClosed : list (Z * option string)    (* [doClose] calls, oldest first *)
}.

(** [new WebSocketChannel(ws, binary, established)] *)
Definition create (established : bool) : WebSocketChannel :=
  mkChannel established false false [] [].

(** [_init()]: the socket has opened. *)
Definition _init (ch : WebSocketChannel) : WebSocketChannel :=
  mkChannel true (closed ch) false (wsSent ch) (wsClosed ch).

(** [on("close", listener)] *)
Definition onClose (ch : WebSocketChannel) : WebSocketChannel :=
  mkChannel (established ch) (closed ch) true (wsSent ch) (wsClosed ch).

(** [interpretCloseStatus]: a number (not an error) or the pair of an
    error code and a message. *)
Definition interpretCloseStatus (code : Z) (reason : string)
  : Z + (string * string) :=
  if code =? 1000 then inl code
  else if code =? 1001 then inr ("X_GOINGAWAY", "Endpoint is going away")
  else if code =? 1002 then inr ("EPROTOTYPE", "Protocol error")
  else if code =? 1006 then inr ("ECONNABORTED", "Connection aborted")
  else if code =? 1007 then inr ("EFAILURE", "Invalid message")
  else if code =? 1008 then inr ("EFAILURE", "Prohibited message")
  else if code =? 1009 then inr ("EFAILURE", "Message too large")
  else if code =? 1010 then inr ("ECONNRESET", "Connection terminated")
  else if code =? 1011 then inr ("ECONNRESET", reason)
  else if code =? 1015
       then inr ("EFAILURE", "Unable to negotiate secure connection")
  else inr ("EFAILURE", "Connection failed").

(** The override of channel-web.ts (class WebSocketChannelWeb);
    [failed] is set by the socket's error event. *)
Definition interpretCloseStatusWeb (failed : bool) (code : Z)
    (reason : string) : Z + (string * string) :=
  if (code =? 1006) && failed then inr ("ECONNREFUSED", "Connection refused")
  else if code =? 1011 then inr ("ECONNRESET", "Connection reset")
  else interpretCloseStatus code reason.

(** [close(reason, description)] *)
Definition close (ch : WebSocketChannel) (reason : option Z)
    (description : option string) : WebSocketChannel :=
  if closed ch then ch
  else
    let reason := match reason with
                  | Some r => if r =? 0 then 1000 else r
                  | None => 1000
                  end in
    mkChannel (established ch) true false (wsSent ch)
              (wsClosed ch ++ [(reason, description)]).

(** [send(packet)] ([doSend] is taken not to throw). *)
Definition send (ch : WebSocketChannel) (packet : Wire.Packet)
  : WebSocketChannel :=
  if closed ch then ch
  else mkChannel (established ch) (closed ch) (onclose ch)
                 (wsSent ch ++ [packet]) (wsClosed ch).






End Channel.

(* ===================================================================== *)
(** ** sftp-client.ts: class SftpClientCore (and the bind of SftpClient) *)
(* ===================================================================== *)

Module Client.

Import Wire.

(** Modelled from the spec: sftp-enums.ts is not among the sources; the
    status codes are those of the STATUS table. *)
Definition OK : Z := 0.
Definition EOF : Z := 1.
Definition NO_SUCH_FILE : Z := 2.
Definition PERMISSION_DENIED : Z := 3.
Definition FAILURE : Z := 4.
Definition BAD_MESSAGE : Z := 5.
Definition NO_CONNECTION : Z := 6.
Definition CONNECTION_LOST : Z := 7.
Definition OP_UNSUPPORTED : Z := 8.

Definition MAX_WRITE_BLOCK_LENGTH : Z := 1024 * 1024.
Definition MAX_READ_BLOCK_LENGTH : Z := 1024 * 1024.

(** [SftpFeature] and the extension names of [SftpExtensions]. *)
Definition F_HARDLINK := "LINK".
Definition F_POSIX_RENAME := "POSIX_RENAME".
Definition F_COPY_DATA := "COPY_DATA".
Definition F_CHECK_FILE_HANDLE := "CHECK_FILE_HANDLE".
Definition F_STATVFS := "STATVFS".
Definition X_HARDLINK := "hardlink@openssh.com".
Definition X_POSIX_RENAME := "posix-rename@openssh.com".
Definition X_COPY_DATA := "copy-data".
Definition X_CHECK_FILE_HANDLE := "check-file-handle".
Definition X_STATVFS := "statvfs@openssh.com".

(** *** Errors *)

Definition hexDigit (n : N) : ascii :=
  nth (N.to_nat n)
      ["0"; "1"; "2"; "3"; "4"; "5"; "6"; "7";
       "8"; "9"; "a"; "b"; "c"; "d"; "e"; "f"]%char "0"%char.

(** [SftpHandle.toString]: "0x" and two hex digits per byte. *)
Definition handleToString (h : Buffer) : string :=
  "0x" +:+
  fold_right (fun b acc =>
                let n := Byte.to_N b in
                String (hexDigit (n / 16)) (String (hexDigit (n mod 16)) acc))
             "" h.

(** The [switch (nativeCode)] of [createError]: the code and errno. *)
Definition errorCode (nativeCode : Z) : string * Z :=
  if nativeCode =? EOF then ("EOF", 1)
  else if nativeCode =? NO_SUCH_FILE then ("ENOENT", 34)
  else if nativeCode =? PERMISSION_DENIED then ("EACCES", 3)
  else if (nativeCode =? OK) || (nativeCode =? FAILURE)
          || (nativeCode =? BAD_MESSAGE) then ("EFAILURE", -2)
  else if nativeCode =? NO_CONNECTION then ("ENOTCONN", 31)
  else if nativeCode =? CONNECTION_LOST then ("ESHUTDOWN", 46)
  else if nativeCode =? OP_UNSUPPORTED then ("ENOSYS", 35)
  else ("UNKNOWN", -1).

Definition createError (nativeCode : Z) (msg : string)
    (info : SftpCommandInfo) : SftpError :=
  let '(code, errno) := errorCode nativeCode in
  let arg :=
    match path info with
    | Some p =>
        if String.eqb p "" then
          match handle info with
          | Some h => handleToString h
          | None => ""
          end
        else "'" +:+ p +:+ "'"
    | None =>
        match handle info with
        | Some h => handleToString h
        | None => ""
        end
    end in
  mkSftpError (code +:+ ", " +:+ command info +:+ " " +:+ arg)
              (Some code) (Some errno) (Some msg) (Some nativeCode) None
              (Some info).

(** [error["code"] = "EIO"; error["errno"] = 55] *)
Definition asEIO (e : SftpError) : SftpError :=
  mkSftpError (message e) (Some "EIO") (Some 55) (description e)
              (nativeCode e) (level e) (context e).

(** *** State *)

(** The values handed to a callback after the error argument. *)
Inductive Value :=
| VNone
| VData (buffer : option Buffer) (bytesRead : Z)
| VHandle (h : Buffer)
| VPath (p : string).

Inductive CbArgs :=
| ArgErr (e : SftpError) (v : Value)
| ArgOk (v : Value).

(** A callback: one supplied by the user of the client (named by a
    tag), or the one [SftpClient._bind] hands to [_init], which wraps
    the user's bind callback. *)
Inductive Callback :=
| UserCb (tag : nat)
| BindCb (tag : nat).

(** The response parsers, with the values their closures capture. *)
Inductive Parser :=
| PInit (callback : Callback)
| PStatus
| PHandle
| PPath
| PData (callback : Callback) (retries : Z) (h : Buffer)
        (buffer : option Buffer) (offset length position : Z).

Record SftpRequest := mkRequest {
  callback : Callback;
  responseParser : Parser;
  info : SftpCommandInfo
}.

(** What the outside observes: a user callback was invoked, or the
    client emitted an event. *)
Inductive Event :=
| Called (tag : nat) (args : CbArgs)
| Emit (name : string) (err : option SftpError).

(** [SftpClientCore], with the channel object it is bound to and the
    [_bound] flag of the enclosing [SftpClient].  [_requests] is the
    array used as a table: the key [None] is the property "null" under
    which the INIT request is stored. *)
Record SftpClientCore := mkCore {
  _host : bool;                          (* [this._host] is set *)
  chan : Channel.WebSocketChannel;       (* the channel object *)
  _id : option Z;
  _requests : gmap (option Z) SftpRequest;
  _extensions : gmap string string;
  _features : gmap string string;
  _bound : bool;
  trace : list Event
}.

(** The constructor. *)
Definition create : SftpClientCore :=
  mkCore false (Channel.create false) None ∅ ∅ ∅ false [].

Definition setHost (st : SftpClientCore) (b : bool) (c : Channel.WebSocketChannel) :=
  mkCore b c (_id st) (_requests st) (_extensions st) (_features st)
         (_bound st) (trace st).
Definition setId (st : SftpClientCore) (i : option Z) :=
  mkCore (_host st) (chan st) i (_requests st) (_extensions st)
         (_features st) (_bound st) (trace st).
Definition setRequests (st : SftpClientCore) (r : gmap (option Z) SftpRequest) :=
  mkCore (_host st) (chan st) (_id st) r (_extensions st) (_features st)
         (_bound st) (trace st).
Definition setExtensions (st : SftpClientCore) (x : gmap string string) :=
  mkCore (_host st) (chan st) (_id st) (_requests st) x (_features st)
         (_bound st) (trace st).
Definition setFeatures (st : SftpClientCore) (f : gmap string string) :=
  mkCore (_host st) (chan st) (_id st) (_requests st) (_extensions st) f
         (_bound st) (trace st).
Definition setBound (st : SftpClientCore) (b : bool) :=
  mkCore (_host st) (chan st) (_id st) (_requests st) (_extensions st)
         (_features st) b (trace st).
Definition log (st : SftpClientCore) (e : Event) :=
  mkCore (_host st) (chan st) (_id st) (_requests st) (_extensions st)
         (_features st) (_bound st) (trace st ++ [e]).

(** The result of a method: it returns, or throws, having changed the
    state either way. *)
Inductive Res :=
| Done (st : SftpClientCore)
| Throw (e : SftpError) (st : SftpClientCore).

(** *** Request ids *)

(** A JavaScript bitwise operation yields a signed 32-bit integer. *)
Definition toInt32 (z : Z) : Z := (z + 2 ^ 31) mod 2 ^ 32 - 2 ^ 31.

(** [(id + 1) & 0xffffffff] *)
Definition nextId (id : Z) : Z := toInt32 (Z.land (id + 1) 0xffffffff).

(** [getRequest(type)]: the id of the new request is the counter before
    it is advanced. *)
Definition getRequest (st : SftpClientCore) (type : PacketType)
  : SftpError * SftpClientCore + option Z * SftpClientCore :=
  let id := _id st in
  if typeIs type INIT then
    match _id st with
    | Some _ => inl (Error "Already initialized", st)
    | None => inr (id, setId st (Some 1))
    end
  else
    match _id st with
    | None => inl (Error "Must be initialized first", st)
    | Some i => inr (id, setId st (Some (nextId i)))
    end.

(** *** Callbacks, [failRequests] and [end] *)

(** Invoking the callback of a request from [failRequests]: by then
    [this._host] is unset and the table is empty, so the [end()] in the
    bind wrapper does nothing more. *)
Definition notifyFailed (st : SftpClientCore) (cb : Callback)
    (e : SftpError) : SftpClientCore :=
  match cb with
  | UserCb tag => log st (Called tag (ArgErr e VNone))
  | BindCb tag => log (setBound st false) (Called tag (ArgErr e VNone))
  end.

(** The elements [requests.forEach] visits: the array indices, that is
    the keys that are integers from 0 to 2^32 - 2, in ascending order. *)
Definition arrayElements (r : gmap (option Z) SftpRequest)
  : list (Z * SftpRequest) :=
  merge_sort (fun a b => fst a <=? fst b)
    (omap (fun kv => match fst kv with
                     | Some i => if (0 <=? i) && (i <? 2 ^ 32 - 1)
                                 then Some (i, snd kv) else None
                     | None => None
                     end)
          (map_to_list r)).

Definition failRequests (st : SftpClientCore) (code : Z) (msg : string)
  : SftpClientCore :=
  let requests := _requests st in
  let st := setRequests st ∅ in
  fold_left (fun st kv =>
               notifyFailed st (callback (snd kv))
                            (createError code msg (info (snd kv))))
            (arrayElements requests) st.

(** [end()] *)
Definition endCore (st : SftpClientCore) : SftpClientCore :=
  let st := if _host st
            then setHost st false (Channel.close (chan st) None None)
            else st in
  failRequests st CONNECTION_LOST "Connection closed".

(** Invoking a callback from a response parser. *)
Definition invoke (st : SftpClientCore) (cb : Callback) (args : CbArgs)
  : SftpClientCore :=
  match cb with
  | UserCb tag => log st (Called tag args)
  | BindCb tag =>
      match args with
      | ArgErr e _ =>
          let st := endCore st in
          log (setBound st false) (Called tag args)
      | ArgOk _ => log (log st (Called tag args)) (Emit "ready" None)
      end
  end.

(** *** Sending *)

(** [execute(request, callback, responseParser, info)] *)
Definition execute (st : SftpClientCore) (request : Packet)
    (cb : Callback) (parser : Parser) (inf : SftpCommandInfo) : Res :=
  if negb (_host st) then
    Done (invoke st cb (ArgErr (createError NO_CONNECTION "Not connected" inf) VNone))
  else
    match pid request, _requests st !! pid request with
    | Some _, Some _ => Throw (Error "Duplicate request") st
    | _, _ =>
        let st := setHost st true (Channel.send (chan st) request) in
        Done (setRequests st
                (<[pid request := mkRequest cb parser inf]> (_requests st)))
    end.

(** [getRequest], the field writers, and [execute]: the path every
    operation takes to send a request. *)
Definition issue (st : SftpClientCore) (type : PacketType)
    (fields : list Field) (cb : Callback) (parser : Parser)
    (inf : SftpCommandInfo) : Res :=
  match getRequest st type with
  | inl (e, st) => Throw e st
  | inr (id, st) => execute st (mkPacket type id fields) cb parser inf
  end.

(** *** Response parsers *)

Definition unexpectedEnd : SftpError := Error "Unexpected end of packet".

(** [readStatus(response)]: the error for a status other than OK, and
    the fields that remain; [None] when a read runs past the packet. *)
Definition readStatus (fields : list Field) (inf : SftpCommandInfo)
  : option (option SftpError * list Field) :=
  match readInt32 fields with
  | None => None
  | Some (nativeCode, fields) =>
      match readString fields with
      | None => None
      | Some (msg, fields) =>
          if nativeCode =? OK then Some (None, fields)
          else Some (Some (createError nativeCode msg inf), fields)
      end
  end.

(** [checkResponse(response, expectedType, callback)]: the fields left
    to read when it returns [true]; otherwise the method is over. *)
Definition checkResponse (st : SftpClientCore) (response : Packet)
    (expectedType : Z) (cb : Callback) (inf : SftpCommandInfo)
  : Res + list Field :=
  let continue fields :=
    if typeIs (ptype response) expectedType then inr fields
    else inl (Throw (Error "Unexpected packet received") st) in
  if typeIs (ptype response) STATUS then
    match readStatus (pbody response) inf with
    | None => inl (Throw unexpectedEnd st)
    | Some (Some error, _) => inl (Done (invoke st cb (ArgErr error VNone)))
    | Some (None, fields) => continue fields
    end
  else continue (pbody response).

Definition parseStatus (st : SftpClientCore) (response : Packet)
    (cb : Callback) (inf : SftpCommandInfo) : Res :=
  match checkResponse st response STATUS cb inf with
  | inl r => r
  | inr _ => Done (invoke st cb (ArgOk VNone))
  end.

Definition parseHandle (st : SftpClientCore) (response : Packet)
    (cb : Callback) (inf : SftpCommandInfo) : Res :=
  match checkResponse st response HANDLE cb inf with
  | inl r => r
  | inr fields =>
      match readData fields with
      | None => Throw unexpectedEnd st
      | Some (h, _) => Done (invoke st cb (ArgOk (VHandle h)))
      end
  end.

Definition parsePath (st : SftpClientCore) (response : Packet)
    (cb : Callback) (inf : SftpCommandInfo) : Res :=
  match checkResponse st response NAME cb inf with
  | inl r => r
  | inr fields =>
      match readInt32 fields with
      | None => Throw unexpectedEnd st
      | Some (count, fields) =>
          if negb (count =? 1) then Throw (Error "Invalid response") st
          else match readString fields with
               | None => Throw unexpectedEnd st
               | Some (p, _) => Done (invoke st cb (ArgOk (VPath p)))
               end
      end
  end.

Definition bufferLength (b : Buffer) : Z := Z.of_nat (List.length b).

(** [buffer.set(data, offset)] within the bounds of [buffer]. *)
Definition bufferSet (buffer data : Buffer) (offset : Z) : Buffer :=
  firstn (Z.to_nat offset) buffer ++ data
    ++ skipn (Z.to_nat offset + List.length data) buffer.

(** [parseData(response, callback, retries, h, buffer, offset, length,
    position)] *)
Definition parseData (st : SftpClientCore) (response : Packet)
    (cb : Callback) (retries : Z) (h : Buffer) (buffer : option Buffer)
    (offset length position : Z) (inf : SftpCommandInfo) : Res :=
  let afterStatus fields :=
    match readData fields with
    | None => Throw unexpectedEnd st
    | Some (data, _) =>
        if length <? bufferLength data
        then Throw (Error "Received too much data") st
        else
          let length := bufferLength data in
          if length =? 0 then
            if 4 <? retries then
              let error := asEIO (createError FAILURE "Unable to read data" inf) in
              Done (invoke st cb (ArgErr error (VData None 0)))
            else
              issue st (TNum READ)
                    [FData h; FInt64 position; FInt32 length]
                    cb
                    (PData cb (retries + 1) h buffer offset length position)
                    inf
          else
            let buffer := match buffer with
                          | None => data
                          | Some b => bufferSet b data offset
                          end in
            Done (invoke st cb (ArgOk (VData (Some buffer) length)))
    end in
  if typeIs (ptype response) STATUS then
    match readStatus (pbody response) inf with
    | None => Throw unexpectedEnd st
    | Some (Some error, _) =>
        if bool_decide (nativeCode error = Some EOF) then
          Done (invoke st cb (ArgOk (VData (Some []) 0)))
        else Done (invoke st cb (ArgErr error (VData None 0)))
    | Some (None, fields) => afterStatus fields
    end
  else afterStatus (pbody response).

(** [SftpExtensions.contains(values, value)].

    Modelled from the spec: sftp-misc.ts is not among the sources; an
    extension counts when its "value must contain" the given text. *)
Definition contains (values : option string) (value : string) : bool :=
  match values with
  | Some s => bool_decide (is_Some (String.index 0 value s))
  | None => false
  end.

(** The [while] loop of the VERSION parser: name and value pairs until
    the end of the packet ([SftpExtensions.read] is taken to read one
    string).  [None] when a read runs past the packet. *)
Fixpoint readExtensions (fuel : nat) (fields : list Field)
    (ext : gmap string string) : option (gmap string string) :=
  match fuel, fields with
  | _, [] => Some ext
  | O, _ => Some ext
  | S fuel', _ =>
      match readString fields with
      | None => None
      | Some (extensionName, fields) =>
          match readString fields with
          | None => None
          | Some (value, fields) =>
              readExtensions fuel' fields (<[extensionName := value]> ext)
          end
      end
  end.

(** The response parser of [_init]; [host] is the channel of the
    closure, the one held in [chan]. *)
Definition parseInit (st : SftpClientCore) (response : Packet)
    (cb : Callback) (inf : SftpCommandInfo) : Res :=
  if negb (typeIs (ptype response) VERSION) then
    let st := setHost st (_host st)
                      (Channel.close (chan st) (Some 3002) None) in
    Done (invoke st cb (ArgErr (Error "Protocol violation") VNone))
  else
    match readInt32 (pbody response) with
    | None => Throw unexpectedEnd st
    | Some (version, fields) =>
        if negb (version =? 3) then
          let st := setHost st (_host st)
                            (Channel.close (chan st) (Some 3002) None) in
          Done (invoke st cb
                  (ArgErr (createError BAD_MESSAGE
                             "Unexpected protocol version" inf) VNone))
        else
          match readExtensions (List.length fields) fields (_extensions st) with
          | None => Throw unexpectedEnd st
          | Some ext =>
              let st := setExtensions st ext in
              let f := _features st in
              let f := if contains (ext !! X_HARDLINK) "1"
                       then <[F_HARDLINK := X_HARDLINK]> f else f in
              let f := if contains (ext !! X_POSIX_RENAME) "1"
                       then <[F_POSIX_RENAME := X_POSIX_RENAME]> f else f in
              let f := <[F_CHECK_FILE_HANDLE := X_CHECK_FILE_HANDLE]> f in
              let f := <[F_COPY_DATA := X_COPY_DATA]> f in
              let f := <[F_STATVFS := X_STATVFS]> f in
              Done (invoke (setFeatures st f) cb (ArgOk VNone))
          end
    end.

Definition runParser (st : SftpClientCore) (request : SftpRequest)
    (response : Packet) : Res :=
  match responseParser request with
  | PInit cb => parseInit st response cb (info request)
  | PStatus => parseStatus st response (callback request) (info request)
  | PHandle => parseHandle st response (callback request) (info request)
  | PPath => parsePath st response (callback request) (info request)
  | PData cb retries h buffer offset length position =>
      parseData st response cb retries h buffer offset length position
                (info request)
  end.

(** [_process(packet)]: the packet is given by its type byte and the
    fields that follow it. *)
Definition _process (st : SftpClientCore) (rawType : Z)
    (fields : list Field) : Res :=
  match SftpPacketReader rawType fields with
  | None => Throw unexpectedEnd st
  | Some response =>
      match _requests st !! pid response with
      | None => Throw (Error "Unknown response ID") st
      | Some request =>
          let st := setRequests st (delete (pid response) (_requests st)) in
          runParser st request response
      end
  end.

(** *** Binding *)

(** [_init(host, log, callback)] *)
Definition _init (st : SftpClientCore) (host : Channel.WebSocketChannel)
    (cb : Callback) : Res :=
  if _host st then Throw (Error "Already bound") st
  else
    let st := setExtensions (setHost st true host) ∅ in
    issue st (TNum INIT) [FInt32 3] cb (PInit cb)
          (mkInfo "init" None None []).

(** [SftpClient._bind(channel, options, callback)]; the listeners for
    "message" and "close" are [onMessage] and [onChannelClose]. *)
Definition _bind (st : SftpClientCore) (channel : Channel.WebSocketChannel)
    (tag : nat) : Res :=
  if _bound st then
    Done (log st (Called tag (ArgErr (Error "Already bound") VNone)))
  else
    match _init (setBound st true) channel (BindCb tag) with
    | Throw e st => Throw e st
    | Done st => Done (setHost st (_host st) (Channel.onClose (chan st)))
    end.

(** The "message" listener of [_bind]. *)
Definition onMessage (st : SftpClientCore) (rawType : Z)
    (fields : list Field) : SftpClientCore :=
  match _process st rawType fields with
  | Done st => st
  | Throw e st => log st (Emit "error" (Some e))
  end.

(** *** Operations *)

(** [checkPosition] *)
Definition checkPosition (position : Z) : bool :=
  (0 <=? position) && (position <=? 0x7fffffffffffffff).

(** [checkBuffer]; [true] when it does not throw. *)
Definition checkBuffer (buffer : Buffer) (offset length : Z)
  : option SftpError :=
  if offset <? 0 then Some (Error "Invalid offset")
  else if length <? 0 then Some (Error "Invalid length")
  else if bufferLength buffer <? offset + length
       then Some (Error "Offset or length is out of bounds")
  else None.

(** [checkPath]; [Path.check] (fs-misc.ts, not among the sources) is
    taken to return the path as it is. *)
Definition checkPath (p : string) : string :=
  match p with
  | String "~" (String "/" rest) => "." +:+ String "/" rest
  | String "~" EmptyString => "."
  | _ => p
  end.

Definition blockTooLong (what : string) (length max : Z) : SftpError :=
  mkError ("Length " +:+ pretty length +:+ " exceeds maximum allowed "
             +:+ what +:+ " data block length " +:+ pretty max)
          (Some "EIO") (Some 55) None None None.

Definition read (st : SftpClientCore) (h : Buffer) (buffer : option Buffer)
    (offset length position : Z) (cb : Callback) : Res :=
  match (match buffer with
         | Some b => checkBuffer b offset length
         | None => None
         end) with
  | Some e => Throw e st
  | None =>
      if negb (checkPosition position) then Throw (Error "Invalid position") st
      else if MAX_READ_BLOCK_LENGTH <? length then
        Done (invoke st cb
                (ArgErr (blockTooLong "read" length MAX_READ_BLOCK_LENGTH)
                        (VData buffer 0)))
      else
        issue st (TNum READ) [FData h; FInt64 position; FInt32 length] cb
              (PData cb 0 h buffer offset length position)
              (mkInfo "read" None (Some h) [])
  end.

(** [data.slice(start, end)] *)
Definition slice (b : Buffer) (start stop : Z) : Buffer :=
  firstn (Z.to_nat (stop - start)) (skipn (Z.to_nat start) b).

Definition write (st : SftpClientCore) (h : Buffer) (buffer : Buffer)
    (offset length position : Z) (cb : Callback) : Res :=
  match checkBuffer buffer offset length with
  | Some e => Throw e st
  | None =>
      if negb (checkPosition position) then Throw (Error "Invalid position") st
      else if MAX_WRITE_BLOCK_LENGTH <? length then
        Done (invoke st cb
                (ArgErr (blockTooLong "write" length MAX_WRITE_BLOCK_LENGTH)
                        VNone))
      else
        issue st (TNum WRITE)
              [FData h; FInt64 position;
               FData (slice buffer offset (offset + length))]
              cb PStatus (mkInfo "write" None (Some h) [])
  end.

Definition close (st : SftpClientCore) (h : Buffer) (cb : Callback) : Res :=
  issue st (TNum CLOSE) [FData h] cb PStatus (mkInfo "close" None (Some h) []).

(** [command(command, args, callback, responseParser, info)]: a packet
    type, or the name of a feature looked up in [_features]. *)
Definition command (st : SftpClientCore) (cmd : Z + string)
    (args : list string) (cb : Callback) (parser : Parser)
    (inf : SftpCommandInfo) : Res :=
  let unsupported :=
    Done (invoke st cb
            (ArgErr (createError OP_UNSUPPORTED "Operation not supported" inf)
                    VNone)) in
  let type :=
    match cmd with
    | inl n => if n =? 0 then None else Some (TNum n)
    | inr feature =>
        match _features st !! feature with
        | Some name => if String.eqb name "" then None else Some (TExt name)
        | None => None
        end
    end in
  match type with
  | None => unsupported
  | Some type => issue st type (map FString args) cb parser inf
  end.

Definition unlink (st : SftpClientCore) (p : string) (cb : Callback) : Res :=
  let p := checkPath p in
  command st (inl REMOVE) [p] cb PStatus (mkInfo "unlink" (Some p) None []).

Definition readlink (st : SftpClientCore) (p : string) (cb : Callback) : Res :=
  let p := checkPath p in
  command st (inl READLINK) [p] cb PPath (mkInfo "readlink" (Some p) None []).

Definition link (st : SftpClientCore) (oldPath newPath : string)
    (cb : Callback) : Res :=
  let oldPath := checkPath oldPath in
  let newPath := checkPath newPath in
  command st (inr F_HARDLINK) [oldPath; newPath] cb PStatus
          (mkInfo "link" None None [("oldPath", oldPath); ("newPath", newPath)]).

End Client.

(* ===================================================================== *)
(** ** sftp-fuse.ts: class SftpFuse *)
(* ===================================================================== *)

Module Fuse.

Definition Buffer := list Byte.byte.

Definition bufferLength (b : Buffer) : Z := Z.of_nat (List.length b).

(** *** The TTL caches

    [TTLCache] comes from the package @isaacs/ttlcache: [set] stores the
    value with the cache's time to live, and the entry is purged when
    that time has passed.  An entry is kept with the instant at which it
    expires; time is in milliseconds. *)
Record TTLCache (V : Type) := mkCache {
  ttl : Z;
  entries : gmap string (V * Z)
}.
Arguments mkCache {V}.
Arguments ttl {V}.
Arguments entries {V}.

(** [new TTLCache({ttl})] *)
Definition newCache {V} (ttl : Z) : TTLCache V := mkCache ttl ∅.

(** [cache.has(key)] at the instant [now]. *)
Definition has {V} (c : TTLCache V) (key : string) (now : Z) : bool :=
  match entries c !! key with
  | Some (_, expiry) => now <? expiry
  | None => false
  end.

(** [cache.get(key)] at the instant [now]. *)
Definition get {V} (c : TTLCache V) (key : string) (now : Z) : option V :=
  match entries c !! key with
  | Some (v, expiry) => if now <? expiry then Some v else None
  | None => None
  end.

(** [cache.set(key, value)] at the instant [now]. *)
Definition set {V} (c : TTLCache V) (key : string) (v : V) (now : Z)
  : TTLCache V :=
  mkCache (ttl c) (<[key := (v, now + ttl c)]> (entries c)).

(** [cache.delete(key)] *)
Definition delete {V} (c : TTLCache V) (key : string) : TTLCache V :=
  mkCache (ttl c) (base.delete key (entries c)).

(** [cache?.delete(key)] on a cache that may be absent. *)
Definition deleteOpt {V} (c : option (TTLCache V)) (key : string)
  : option (TTLCache V) :=
  match c with
  | Some c => Some (delete c key)
  | None => None
  end.

(** [cache?.has(key)] *)
Definition hasOpt {V} (c : option (TTLCache V)) (key : string) (now : Z)
  : bool :=
  match c with
  | Some c => has c key now
  | None => false
  end.

(** *** State *)

Inductive State := Init | Connecting | Ready | Closed.

(** The attributes the adapter hands to the kernel. *)
Record Attr := mkAttr {
  size : option Z;
  mode : option Z;
  atime : option Z;
  mtime : option Z;
  ctime : option Z;
  blocks : Z
}.

(** A value of the attribute cache: [{attr}] or [{errno}]. *)
Inductive AttrEntry :=
| EntryAttr (attr : Attr)
| EntryErrno (errno : Z).

(** A buffered write: [{buffer, position}]. *)
Record WriteRec := mkRec {
  buffer : Buffer;
  position : Z
}.

(** [flags: string | number] *)
Inductive Flags :=
| FlagStr (s : string)
| FlagNum (n : Z).

(** The attributes passed to [setstat] and [mkdir]. *)
Inductive SetAttrs :=
| SetSize (size : Z)
| SetTimes (atime mtime : Z)
| SetMode (mode : Z).

(** The calls the adapter makes on the client ([this.sftp]); a handle is
    given by its file descriptor, a write by the bytes
    [buffer[offset .. offset + length)] it sends. *)
Inductive SftpCall :=
| CWrite (fd : Z) (data : Buffer) (position : Z)
| CSetstat (path : string) (attrs : SetAttrs)
| COpen (path : string) (flags : string)
| CClose (fd : Z)
| CUnlink (path : string)
| CRename (src dest : string) (flags : Z)
| CLink (src dest : string)
| CSymlink (src dest : string)
| CMkdir (path : string) (mode : Z)
| CRmdir (path : string)
| CReadlink (path : string).

(** What the server answers: a STATUS code with its message, or the
    value of a successful [open] (a handle) or [readlink] (a path). *)
Inductive Answer :=
| AStatus (code : Z) (msg : string)
| AHandle (fd : Z)
| AName (path : string).

Record SftpFuse := mkFuse {
  state : State;
  data : gmap Z (list WriteRec);
  attrCache : option (TTLCache AttrEntry);
  dirCache : option (TTLCache (list string));
  linkCache : option (TTLCache (option string));
  readTracking : option (TTLCache bool);
  readTrackingModified : Z;
  hidePath : option string;
  sftp : list SftpCall          (* calls made on [this.sftp], oldest first *)
}.

Definition setData (s : SftpFuse) (d : gmap Z (list WriteRec)) :=
  mkFuse (state s) d (attrCache s) (dirCache s) (linkCache s)
         (readTracking s) (readTrackingModified s) (hidePath s) (sftp s).
Definition setAttrCache (s : SftpFuse) (c : option (TTLCache AttrEntry)) :=
  mkFuse (state s) (data s) c (dirCache s) (linkCache s)
         (readTracking s) (readTrackingModified s) (hidePath s) (sftp s).
Definition setDirCache (s : SftpFuse) (c : option (TTLCache (list string))) :=
  mkFuse (state s) (data s) (attrCache s) c (linkCache s)
         (readTracking s) (readTrackingModified s) (hidePath s) (sftp s).
Definition setLinkCache (s : SftpFuse) (c : option (TTLCache (option string))) :=
  mkFuse (state s) (data s) (attrCache s) (dirCache s) c
         (readTracking s) (readTrackingModified s) (hidePath s) (sftp s).
Definition setReadTracking (s : SftpFuse) (c : option (TTLCache bool)) :=
  mkFuse (state s) (data s) (attrCache s) (dirCache s) (linkCache s)
         c (readTrackingModified s) (hidePath s) (sftp s).
Definition setSftp (s : SftpFuse) (l : list SftpCall) :=
  mkFuse (state s) (data s) (attrCache s) (dirCache s) (linkCache s)
         (readTracking s) (readTrackingModified s) (hidePath s) l.

(** The caches of the constructor: one is created when its timeout (in
    seconds) is not zero. *)
Definition cacheFor {V} (timeout : option Z) (cacheTimeout : Z)
  : option (TTLCache V) :=
  let t := match timeout with Some t => t | None => cacheTimeout end in
  if t =? 0 then None else Some (newCache (t * 1000)).

(** [new SftpFuse(remote, options)] once connected (read tracking and
    the metadata file left out). *)
Definition create (cacheTimeout : Z)
    (cacheStatTimeout cacheDirTimeout cacheLinkTimeout : option Z)
    (hidePath : option string) : SftpFuse :=
  mkFuse Ready ∅ (cacheFor cacheStatTimeout cacheTimeout)
         (cacheFor cacheDirTimeout cacheTimeout)
         (cacheFor cacheLinkTimeout cacheTimeout)
         None 0 hidePath [].

(** What a kernel callback is invoked with: a status (0, a negative
    errno, or a byte count) and possibly a value. *)
Inductive CbValue :=
| NoValue
| Target (t : option string)
| Fd (fd : Z).

Record CbResult := mkCb {
  status : Z;
  value : CbValue
}.

Definition MAX_WRITE_BLOCK_LENGTH : Z := Client.MAX_WRITE_BLOCK_LENGTH.

(** [clearCache(path)] *)
Definition clearCache (s : SftpFuse) (path : string) : SftpFuse :=
  let s := setAttrCache s (deleteOpt (attrCache s) path) in
  match dirCache s with
  | Some _ =>
      let s := setDirCache s (deleteOpt (dirCache s) path) in
      setDirCache s (deleteOpt (dirCache s) (NodePath.dirname path))
  | None => s
  end.

(** The arguments a callback of the client is invoked with. *)
Inductive Value :=
| VNone
| VHandle (fd : Z)
| VPath (p : string).

Inductive Reply :=
| ReplyErr (e : SftpError)
| ReplyOk (v : Value).

(** A method of the adapter invokes the kernel callback, or throws. *)
Inductive Outcome :=
| Cb (r : CbResult)
| Throws (msg : string).

Definition cb0 : Outcome := Cb (mkCb 0 NoValue).

Section Operations.

(** The error table of the host library ([Fuse[name]], package
    @cocalc/fuse-native), the client with the server behind it (its
    reply to a call, given the calls made before), and
    [convertOpenFlags] of ./flags. *)
Variable errnoTable : string -> option Z.
Variable respond : list SftpCall -> SftpCall -> Reply.
Variable convertOpenFlags : Z -> string.

(** [Fuse.ENOTCONN], [Fuse.ENOSYS] *)
Definition ENOTCONN : Z := default 0 (errnoTable "ENOTCONN").
Definition ENOSYS : Z := default 0 (errnoTable "ENOSYS").

(** [getErrno(err)] *)
Definition getErrno (err : SftpError) : Z :=
  let byCode :=
    match code err with
    | Some c =>
        match errnoTable c with
        | Some e => if e =? 0 then None else Some e
        | None => None
        end
    | None => None
    end in
  match (match description err with
         | Some d => errnoTable d
         | None => None
         end) with
  | Some e => e
  | None =>
      match code err, byCode with
      | Some _, Some e => e
      | Some _, None =>
          match errno err with
          | Some n => - Z.abs n
          | None => ENOSYS
          end
      | None, _ => ENOSYS
      end
  end.

(** [fuseError(cb)(err, ...args)] *)
Definition fuseError (r : Reply) (v : CbValue) : Outcome :=
  match r with
  | ReplyErr e => Cb (mkCb (getErrno e) NoValue)
  | ReplyOk _ => Cb (mkCb 0 v)
  end.

(** [this.sftp.<method>(..., callback)] *)
Definition callSftp (s : SftpFuse) (c : SftpCall) : SftpFuse * Reply :=
  (setSftp s (sftp s ++ [c]), respond (sftp s) c).

(** [isNotReady(cb)] *)
Definition isNotReady (s : SftpFuse) : bool :=
  match state s with
  | Ready => false
  | _ => true
  end.

Definition notConnected : Outcome := Cb (mkCb ENOTCONN NoValue).

(** [data.slice(start, end)] *)
Definition slice (b : Buffer) (start stop : Z) : Buffer :=
  firstn (Z.to_nat (stop - start)) (skipn (Z.to_nat start) b).

(** The [while (length > 0)] loop of [writeToDisk]; it runs at most
    [length] times.  The error of the first write that fails is
    thrown. *)
Fixpoint writeToDiskLoop (fuel : nat) (s : SftpFuse) (fd : Z)
    (buffer : Buffer) (length offset position : Z)
  : SftpFuse * option SftpError :=
  match fuel with
  | O => (s, None)
  | S fuel' =>
      if 0 <? length then
        let n := Z.min MAX_WRITE_BLOCK_LENGTH length in
        let '(s, r) :=
          callSftp s (CWrite fd (slice buffer offset (offset + n)) position) in
        match r with
        | ReplyErr e => (s, Some e)
        | ReplyOk _ =>
            writeToDiskLoop fuel' s fd buffer (length - n) (offset + n)
                            (position + n)
        end
      else (s, None)
  end.

Definition writeToDisk (s : SftpFuse) (fd : Z) (buffer : Buffer)
    (length position : Z) : SftpFuse * option SftpError :=
  let length := Z.min length (bufferLength buffer) in
  writeToDiskLoop (Z.to_nat length) s fd buffer length 0 position.

(** The inner [while] of [flush]: records at the head of [data] that
    continue the buffer are appended to it. *)
Fixpoint combine (buffer : Buffer) (position : Z) (data : list WriteRec)
  : Buffer * list WriteRec :=
  match data with
  | r :: rest =>
      if Fuse.position r =? bufferLength buffer + position
      then combine (buffer ++ Fuse.buffer r) position rest
      else (buffer, data)
  | [] => (buffer, [])
  end.

(** The outer [while (data.length > 0)] of [flush]; each round takes
    at least one record. *)
Fixpoint flushLoop (fuel : nat) (s : SftpFuse) (fd : Z)
    (data : list WriteRec) : SftpFuse * option SftpError :=
  match fuel, data with
  | _, [] => (s, None)
  | O, _ => (s, None)
  | S fuel', r :: rest =>
      let '(buffer, rest) := combine (Fuse.buffer r) (Fuse.position r) rest in
      match writeToDisk s fd buffer (bufferLength buffer) (Fuse.position r) with
      | (s, Some e) => (s, Some e)
      | (s, None) => flushLoop fuel' s fd rest
      end
  end.

(** [flush(path, fd, cb)] *)
Definition flush (s : SftpFuse) (path : string) (fd : Z)
  : SftpFuse * Outcome :=
  if isNotReady s then (s, notConnected)
  else
    match data s !! fd with
    | None => (s, cb0)
    | Some recs =>
        let s := setData s (base.delete fd (data s)) in
        let s := clearCache s path in
        match flushLoop (List.length recs) s fd recs with
        | (s, None) => (s, cb0)
        | (s, Some err) =>
            if bool_decide (errno err = Some (-2)) then (s, cb0)
            else (s, fuseError (ReplyErr err) NoValue)
        end
    end.

(** [fsync(path, dataSync, fd, cb)] *)
Definition fsync (s : SftpFuse) (path : string) (fd : Z)
  : SftpFuse * Outcome :=
  flush s path fd.

(** [write(path, fd, buffer, length, position, cb)].  The callback
    given to the forced [flush] receives a number, for which
    [getErrno] falls back to ENOSYS. *)
Definition write (s : SftpFuse) (path : string) (fd : Z)
    (buffer : Buffer) (length position : Z) : SftpFuse * Outcome :=
  if isNotReady s then (s, notConnected)
  else
    let s := setReadTracking s (deleteOpt (readTracking s) path) in
    let s := clearCache s path in
    let rec := mkRec (slice buffer 0 length) position in
    match data s !! fd with
    | None =>
        (setData s (<[fd := [rec]]> (data s)), Cb (mkCb length NoValue))
    | Some recs =>
        let recs := recs ++ [rec] in
        let s := setData s (<[fd := recs]> (data s)) in
        if 50 <? Z.of_nat (List.length recs) then
          match flush s path fd with
          | (s, Cb r) =>
              if status r =? 0 then (s, Cb (mkCb length NoValue))
              else (s, Cb (mkCb ENOSYS NoValue))
          | (s, Throws m) => (s, Throws m)
          end
        else (s, Cb (mkCb length NoValue))
    end.

(** [release(path, fd, cb)] *)
Definition release (s : SftpFuse) (path : string) (fd : Z)
  : SftpFuse * Outcome :=
  if isNotReady s then (s, notConnected)
  else
    let '(s, r) := callSftp s (CClose fd) in
    (s, fuseError r NoValue).

(** [this.sftp.setstat(...)] and the like when [this.sftp] may have
    been deleted: outside the ready state the property access
    throws. *)
Definition callOrThrow (s : SftpFuse) (c : SftpCall)
  : SftpFuse * Outcome :=
  if isNotReady s
  then (s, Throws "Cannot read properties of undefined")
  else let '(s, r) := callSftp s c in (s, fuseError r NoValue).

Definition truncate (s : SftpFuse) (path : string) (size : Z)
  : SftpFuse * Outcome :=
  if isNotReady s then (s, notConnected)
  else callOrThrow (clearCache s path) (CSetstat path (SetSize size)).

Definition ftruncate (s : SftpFuse) (path : string) (fd size : Z)
  : SftpFuse * Outcome :=
  if isNotReady s then (s, notConnected)
  else truncate s path size.

Definition utimens (s : SftpFuse) (path : string) (atime mtime : Z)
  : SftpFuse * Outcome :=
  callOrThrow (clearCache s path) (CSetstat path (SetTimes atime mtime)).

Definition chmod (s : SftpFuse) (path : string) (mode : Z)
  : SftpFuse * Outcome :=
  if isNotReady s then (s, notConnected)
  else callOrThrow (setAttrCache s (deleteOpt (attrCache s) path))
                   (CSetstat path (SetMode mode)).

(** [trackRead(path)] at the instant [now] *)
Definition trackRead (s : SftpFuse) (path : string) (now : Z) : SftpFuse :=
  match readTracking s, attrCache s with
  | Some rt, Some ac =>
      let rt := if readTrackingModified s =? 0
                then set rt path true now else rt in
      let rt :=
        match get ac path now with
        | Some (EntryAttr x) =>
            match mtime x with
            | Some m =>
                if now - m <=? 1000 * readTrackingModified s
                then delete rt path
                else set rt path true now
            | None => set rt path true now
            end
        | _ => rt
        end in
      setReadTracking s (Some rt)
  | _, _ => s
  end.

Definition open (s : SftpFuse) (path : string) (flags : Flags) (now : Z)
  : SftpFuse * Outcome :=
  if isNotReady s then (s, notConnected)
  else
    let flags := match flags with
                 | FlagStr f => f
                 | FlagNum n => convertOpenFlags n
                 end in
    let s := trackRead s path now in
    let s := clearCache s path in
    let '(s, r) := callSftp s (COpen path flags) in
    match r with
    | ReplyErr _ => (s, fuseError r NoValue)
    | ReplyOk v =>
        let fd := match v with VHandle fd => fd | _ => 0 end in
        (s, Cb (mkCb 0 (Fd fd)))
    end.

Definition create_ (s : SftpFuse) (path : string) (mode : Z) (now : Z)
  : SftpFuse * Outcome :=
  if isNotReady s then (s, notConnected)
  else open s path (FlagStr "w") now.

Definition unlink (s : SftpFuse) (path : string) : SftpFuse * Outcome :=
  if isNotReady s then (s, notConnected)
  else callOrThrow (clearCache s path) (CUnlink path).

(** [RenameFlags.OVERWRITE] *)
Definition OVERWRITE : Z := 1.

Definition clearBoth (s : SftpFuse) (src dest : string) : SftpFuse :=
  let s := clearCache s src in
  let s := clearCache s dest in
  let s := setDirCache s (deleteOpt (dirCache s) (NodePath.dirname src)) in
  setDirCache s (deleteOpt (dirCache s) (NodePath.dirname dest)).

Definition rename (s : SftpFuse) (src dest : string) : SftpFuse * Outcome :=
  if isNotReady s then (s, notConnected)
  else callOrThrow (clearBoth s src dest) (CRename src dest OVERWRITE).

Definition link (s : SftpFuse) (src dest : string) : SftpFuse * Outcome :=
  if isNotReady s then (s, notConnected)
  else callOrThrow (clearBoth s src dest) (CLink src dest).

Definition symlink (s : SftpFuse) (src dest : string) : SftpFuse * Outcome :=
  if isNotReady s then (s, notConnected)
  else callOrThrow (clearCache (clearCache s src) dest) (CSymlink src dest).

Definition mkdir (s : SftpFuse) (path : string) (mode : Z)
  : SftpFuse * Outcome :=
  if isNotReady s then (s, notConnected)
  else callOrThrow (clearCache s path) (CMkdir path mode).

Definition rmdir (s : SftpFuse) (path : string) : SftpFuse * Outcome :=
  if isNotReady s then (s, notConnected)
  else callOrThrow (clearCache s path) (CRmdir path).

(** [readlink(path, cb)] at the instant [now]; on an error the target
    handed to the callback of the client is [undefined]. *)
Definition readlink (s : SftpFuse) (path : string) (now : Z)
  : SftpFuse * Outcome :=
  if isNotReady s then (s, notConnected)
  else if hasOpt (linkCache s) path now then
    let target := match linkCache s with
                  | Some c => default None (get c path now)
                  | None => None
                  end in
    (s, Cb (mkCb 0 (Target target)))
  else
    let '(s, r) := callSftp s (CReadlink path) in
    let target := match r with
                  | ReplyOk (VPath p) => Some p
                  | _ => None
                  end in
    let s := match linkCache s with
             | Some c => setLinkCache s (Some (set c path target now))
             | None => s
             end in
    (s, fuseError r (Target target)).

(** The mutating operations of the adapter, with their arguments. *)
Inductive Op :=
| OWrite (path : string) (fd : Z) (buffer : Buffer) (length position : Z)
| OTruncate (path : string) (size : Z)
| OFtruncate (path : string) (fd size : Z)
| OUtimens (path : string) (atime mtime : Z)
| OChmod (path : string) (mode : Z)
| OOpen (path : string) (flags : Flags)
| OCreate (path : string) (mode : Z)
| OUnlink (path : string)
| ORename (src dest : string)
| OLink (src dest : string)
| OSymlink (src dest : string)
| OMkdir (path : string) (mode : Z)
| ORmdir (path : string).

Definition run (s : SftpFuse) (op : Op) (now : Z) : SftpFuse * Outcome :=
  match op with
  | OWrite p fd b l pos => write s p fd b l pos
  | OTruncate p sz => truncate s p sz
  | OFtruncate p fd sz => ftruncate s p fd sz
  | OUtimens p a m => utimens s p a m
  | OChmod p m => chmod s p m
  | OOpen p f => open s p f now
  | OCreate p m => create_ s p m now
  | OUnlink p => unlink s p
  | ORename a b => rename s a b
  | OLink a b => link s a b
  | OSymlink a b => symlink s a b
  | OMkdir p m => mkdir s p m
  | ORmdir p => rmdir s p
  end.



Definition isUtimens (op : Op) : bool :=
  match op with
  | OUtimens _ _ _ => true
  | _ => false
  end.

End Operations.

End Fuse.

(* ===================================================================== *)
(** ** Concrete instances used in examples *)
(* ===================================================================== *)

(** *** Path segments

    A segment without a slash; a segment that [normalize] keeps as it is;
    the segments kept from an absolute path. *)
Fixpoint noSlash (s : string) : bool :=
  match s with
  | EmptyString => true
  | String c s' => negb (Ascii.eqb c NodePath.slash) && noSlash s'
  end.

Definition plain (seg : string) : bool :=
  negb (String.eqb seg "") && negb (String.eqb seg ".")
  && negb (String.eqb seg "..") && noSlash seg.

Definition kept (path : string) : list string :=
  rev (fold_left (NodePath.normalizeStep false) (NodePath.segments path) []).


(** An underlying filesystem that accepts every call. *)
Definition acceptAll : list SafeFs.FsCall -> SafeFs.FsCall -> SafeFs.Reply :=
  fun _ _ => SafeFs.ReplyOk SafeFs.VNone.

Definition noAttrs : SafeFs.IStats :=
  SafeFs.mkStats None None None None None None.


(** A client bound to a freshly opened channel; the bind callback has
    tag 0. *)
Definition openChannel : Channel.WebSocketChannel :=
  Channel._init (Channel.create false).

Definition stateOf (r : Client.Res) : Client.SftpClientCore :=
  match r with
  | Client.Done st => st
  | Client.Throw _ st => st
  end.

Definition boundClient : Client.SftpClientCore :=
  stateOf (Client._bind Client.create openChannel 0).

(** The same client once the server has answered VERSION 3. *)
Definition readyClient : Client.SftpClientCore :=
  Client.onMessage boundClient Wire.VERSION [Wire.FInt32 3].





Definition handle42 : Wire.Buffer := [Byte.x00; Byte.x00; Byte.x00; Byte.x2a].



Definition initInfo : SftpCommandInfo := mkInfo "init" None None [].

(** The INIT request as [_bind] registers it. *)
Definition initRequest (tag : nat) : Client.SftpRequest :=
  Client.mkRequest (Client.BindCb tag) (Client.PInit (Client.BindCb tag)) initInfo.

(** A STATUS packet with code OK for the request [id]. *)
Definition statusOk (id : Z) : list Wire.Field :=
  [Wire.FInt32 id; Wire.FInt32 Client.OK; Wire.FString ""; Wire.FString ""].

(** One request that the server answers at once: an [unlink] is sent and
    its STATUS OK comes back. *)
Definition exchange (st : Client.SftpClientCore) : Client.SftpClientCore :=
  match Client._id st with
  | Some i =>
      Client.onMessage (stateOf (Client.unlink st "/tmp/x" (Client.UserCb 2)))
                       Wire.STATUS (statusOk i)
  | None => st
  end.

(** A client with the request of id 1 left unanswered. *)
Definition heldClient : Client.SftpClientCore :=
  stateOf (Client.unlink readyClient "/held" (Client.UserCb 1)).

(** The same client after 2^32 - 1 further requests, each answered at
    once: the counter has gone round. *)
Definition wrapCount : nat := Z.to_nat 4294967295.

Definition wrappedClient : Client.SftpClientCore :=
  Nat.iter wrapCount exchange heldClient.

(** *** Write coalescing, as the specification words it *)

(** Adjacent records are contiguous when the next record's position
    equals the prior record's position plus its length; a run of such
    records becomes one record.  [start] and [acc] are the position and
    bytes of the run so far, [prev] its last record. *)
Fixpoint coalesceRun (start : Z) (acc : Fuse.Buffer) (prev : Fuse.WriteRec)
    (rest : list Fuse.WriteRec) : list Fuse.WriteRec :=
  match rest with
  | [] => [Fuse.mkRec acc start]
  | next :: rest =>
      if Fuse.position next =?
           Fuse.position prev + Fuse.bufferLength (Fuse.buffer prev)
      then coalesceRun start (acc ++ Fuse.buffer next) next rest
      else Fuse.mkRec acc start
             :: coalesceRun (Fuse.position next) (Fuse.buffer next) next rest
  end.

Definition coalesceSpec (recs : list Fuse.WriteRec) : list Fuse.WriteRec :=
  match recs with
  | [] => []
  | r :: rest => coalesceRun (Fuse.position r) (Fuse.buffer r) r rest
  end.

(** One buffer written in chunks of at most 1 MiB: the first chunk, then
    the rest of the buffer where the chunk ended. *)
Fixpoint chunksSpec (fuel : nat) (fd : Z) (buffer : Fuse.Buffer)
    (position : Z) : list Fuse.SftpCall :=
  match fuel, buffer with
  | _, [] => []
  | O, _ => []
  | S fuel', _ =>
      let n := Z.min Fuse.MAX_WRITE_BLOCK_LENGTH (Fuse.bufferLength buffer) in
      Fuse.CWrite fd (firstn (Z.to_nat n) buffer) position
        :: chunksSpec fuel' fd (skipn (Z.to_nat n) buffer) (position + n)
  end.

Definition writesSpec (fd : Z) (recs : list Fuse.WriteRec)
  : list Fuse.SftpCall :=
  flat_map (fun r => chunksSpec (List.length (Fuse.buffer r)) fd
                                (Fuse.buffer r) (Fuse.position r))
           (coalesceSpec recs).

(** The records the two loops of [flush] hand to [writeToDisk]. *)
Fixpoint flushRuns (fuel : nat) (data : list Fuse.WriteRec)
  : list Fuse.WriteRec :=
  match fuel, data with
  | _, [] => []
  | O, _ => []
  | S fuel', r :: rest =>
      let '(buffer, rest) :=
        Fuse.combine (Fuse.buffer r) (Fuse.position r) rest in
      Fuse.mkRec buffer (Fuse.position r) :: flushRuns fuel' rest
  end.

(** The payload of a write call, and its length. *)
Definition writeLength (c : Fuse.SftpCall) : Z :=
  match c with
  | Fuse.CWrite _ d _ => Fuse.bufferLength d
  | _ => 0
  end.

Definition writeData (c : Fuse.SftpCall) : Fuse.Buffer :=
  match c with
  | Fuse.CWrite _ d _ => d
  | _ => []
  end.

(** The error table of the host library on Linux. *)
Definition linuxErrno (name : string) : option Z :=
  if String.eqb name "ENOENT" then Some (-2)
  else if String.eqb name "EIO" then Some (-5)
  else if String.eqb name "EACCES" then Some (-13)
  else if String.eqb name "EROFS" then Some (-30)
  else if String.eqb name "ENOSYS" then Some (-38)
  else if String.eqb name "ENOTCONN" then Some (-107)
  else if String.eqb name "ESHUTDOWN" then Some (-108)
  else None.

(** A server that accepts everything. *)
Definition okServer : list Fuse.SftpCall -> Fuse.SftpCall -> Fuse.Reply :=
  fun _ _ => Fuse.ReplyOk Fuse.VNone.

(** A server that answers every request with the STATUS [code], as the
    client reports it. *)
Definition statusServer (code : Z) (msg : string)
  : list Fuse.SftpCall -> Fuse.SftpCall -> Fuse.Reply :=
  fun _ c =>
    Fuse.ReplyErr
      (Client.createError code msg
         (match c with
          | Fuse.CWrite _ _ _ => mkInfo "write" None (Some handle42) []
          | Fuse.CReadlink p => mkInfo "readlink" (Some p) None []
          | _ => mkInfo "" None None []
          end)).


Definition bytesHello : Fuse.Buffer :=
  list_byte_of_string "hello".
Definition bytesWorld : Fuse.Buffer :=
  list_byte_of_string " world".

(** An adapter with all three caches (20 s). *)
Definition freshFuse : Fuse.SftpFuse := Fuse.create 20 None None None None.

(** A key has no entry in a cache that may be absent. *)
Definition absent {V} (c : option (Fuse.TTLCache V)) (key : string) : Prop :=
  match c with
  | Some c => Fuse.entries c !! key = None
  | None => True
  end.


(** The adapter with the two writes "hello" at 0 and " world" at 5 pending
    on descriptor 42. *)
Definition twoWrites : Fuse.SftpFuse :=
  fst (Fuse.write linuxErrno okServer
         (fst (Fuse.write linuxErrno okServer freshFuse "/f" 42 bytesHello 5 0))
         "/f" 42 bytesWorld 6 5).

(** The three caches of [s'] are those of [s]. *)
Definition sameCaches (s s' : Fuse.SftpFuse) : Prop :=
  Fuse.attrCache s' = Fuse.attrCache s /\
  Fuse.dirCache s' = Fuse.dirCache s /\
  Fuse.linkCache s' = Fuse.linkCache s.


(** The server accepts every write. *)
Definition acceptsWrites
    (respond : list Fuse.SftpCall -> Fuse.SftpCall -> Fuse.Reply) : Prop :=
  forall hist fd d p, exists v, respond hist (Fuse.CWrite fd d p) = Fuse.ReplyOk v.

(** Writes that follow one another from [pos]: each starts where the one
    before ended. *)
Fixpoint wellPlaced (pos : Z) (cs : list Fuse.SftpCall) : Prop :=
  match cs with
  | [] => True
  | Fuse.CWrite _ d p :: rest =>
      p = pos /\ wellPlaced (pos + Fuse.bufferLength d) rest
  | _ :: _ => False
  end.

(* ===================================================================== *)
(** * Properties *)
(* ===================================================================== *)

(** ** Node's [path] module: checks against documented results *)

Example normalize_ex1 : NodePath.normalize "/foo/bar//baz/asdf/quux/.." = "/foo/bar/baz/asdf".
Proof. reflexivity. Qed.
Example normalize_ex2 : NodePath.normalize "/../etc/passwd" = "/etc/passwd".
Proof. reflexivity. Qed.
Example normalize_ex3 : NodePath.normalize "../a/./b/" = "../a/b/".
Proof. reflexivity. Qed.
Example join_ex1 : NodePath.join "/srv/pub" "/a/b" = "/srv/pub/a/b".
Proof. reflexivity. Qed.
Example dirname_ex1 : NodePath.dirname "/a/b/c.txt" = "/a/b".
Proof. reflexivity. Qed.
Example dirname_ex2 : NodePath.dirname "/a" = "/".
Proof. reflexivity. Qed.
Example dirname_ex3 : NodePath.dirname "a" = ".".
Proof. reflexivity. Qed.
Example dirname_ex4 : NodePath.dirname "/a/b/" = "/a".
Proof. reflexivity. Qed.


(** ** Strings: the few facts about [append], [get] and [substring] used below *)

Lemma string_app_cons (x : ascii) (a b : string) :
  String x a +:+ b = String x (a +:+ b).
Proof. reflexivity. Qed.

Lemma string_app_nil_l (b : string) : "" +:+ b = b.
Proof. reflexivity. Qed.

Ltac app_simpl := rewrite ?string_app_cons, ?string_app_nil_l in *; simpl.

Lemma string_length_app (a b : string) :
  String.length (a +:+ b) = (String.length a + String.length b)%nat.
Proof. induction a as [|c a IH]; app_simpl; [reflexivity | now rewrite IH]. Qed.

Lemma string_app_assoc (a b c : string) : (a +:+ b) +:+ c = a +:+ (b +:+ c).
Proof. induction a as [|x a IH]; app_simpl; [reflexivity | now rewrite IH]. Qed.

Lemma string_app_nil_r (a : string) : a +:+ "" = a.
Proof. induction a as [|x a IH]; app_simpl; [reflexivity | now rewrite IH]. Qed.

Lemma string_get_app_at (a b : string) :
  String.get (String.length a) (a +:+ b) = String.get 0 b.
Proof. induction a as [|x a IH]; app_simpl; [reflexivity | exact IH]. Qed.

Lemma substring_all (s : string) : String.substring 0 (String.length s) s = s.
Proof. induction s as [|x s IH]; simpl; [reflexivity | now rewrite IH]. Qed.

Lemma substr_app (a b : string) : SafeFs.substr (a +:+ b) (String.length a) = b.
Proof.
  unfold SafeFs.substr. rewrite string_length_app.
  replace (String.length a + String.length b - String.length a)%nat
    with (String.length b) by lia.
  induction a as [|x a IH]; app_simpl; [apply substring_all | exact IH].
Qed.

Lemma prefix_app (a b : string) : String.prefix a (a +:+ b) = true.
Proof.
  induction a as [|x a IH]; app_simpl; [now destruct b |].
  destruct (ascii_dec x x); [exact IH | congruence].
Qed.

Lemma prefix_split (a s : string) :
  String.prefix a s = true -> exists b, s = a +:+ b.
Proof.
  revert s; induction a as [|x a IH]; intros s H.
  - exists s; reflexivity.
  - destruct s as [|y s]; simpl in H; [discriminate |].
    destruct (ascii_dec x y) as [->|]; [|discriminate].
    destruct (IH s H) as [b ->]. exists b; reflexivity.
Qed.

(** ** SafeFilesystem: the path translation *)

(** The loop of [toVirtualPath], once the first [String.length r1]
    characters have been found equal: it strips the root when the rest of
    the root is a prefix of the rest of the path, and gives ["/"]
    otherwise. *)
Lemma toVirtualPathLoop_spec (r2 r1 f2 : string) (fuel : nat) :
  (String.length r2 < fuel)%nat ->
  SafeFs.toVirtualPathLoop fuel (r1 +:+ r2) (r1 +:+ f2) (String.length r1) =
    if String.prefix r2 f2
    then SafeFs.substr (r1 +:+ f2) (String.length (r1 +:+ r2))
    else "/".
Proof.
  revert r1 f2 fuel.
  induction r2 as [|c r2 IH]; intros r1 f2 fuel Hfuel;
    (destruct fuel as [|fuel]; [simpl in Hfuel; lia |]);
    cbn [SafeFs.toVirtualPathLoop].
  - rewrite string_app_nil_r.
    rewrite (proj2 (Nat.leb_le _ _)) by lia.
    now destruct f2.
  - rewrite !string_length_app; simpl String.length.
    rewrite (proj2 (Nat.leb_gt _ _)) by lia.
    destruct f2 as [|d f2].
    + simpl String.length. rewrite (proj2 (Nat.leb_le _ _)) by lia. reflexivity.
    + simpl String.length. rewrite (proj2 (Nat.leb_gt _ _)) by lia.
      rewrite !string_get_app_at; simpl String.get. simpl String.prefix.
      destruct (ascii_dec c d) as [->|Hne].
      * rewrite bool_decide_eq_true_2 by reflexivity; simpl negb; cbv iota.
        specialize (IH (r1 +:+ String d "") f2 fuel).
        rewrite !string_app_assoc in IH.
        rewrite !string_app_cons, !string_app_nil_l in IH.
        rewrite string_length_app in IH; simpl String.length in IH.
        replace (S (String.length r1)) with (String.length r1 + 1)%nat by lia.
        rewrite IH by (simpl in Hfuel; lia).
        rewrite !string_length_app; simpl String.length.
        now replace (String.length r1 + 1 + String.length r2)%nat
          with (String.length r1 + S (String.length r2))%nat by lia.
      * rewrite bool_decide_eq_false_2 by congruence. reflexivity.
Qed.

(** [toVirtualPath] on a path that does not begin with the root: the
    translation is ["/"], on POSIX and on Windows alike. *)
Theorem toVirtualPath_escape (s : SafeFs.SafeFilesystem) (fullPath : string) :
  String.prefix (SafeFs.root s) fullPath = false ->
  SafeFs.toVirtualPath s fullPath = "/".
Proof.
  intros H. unfold SafeFs.toVirtualPath.
  pose proof (toVirtualPathLoop_spec (SafeFs.root s) "" fullPath
                (S (String.length (SafeFs.root s)))) as L.
  rewrite !string_app_nil_l in L. simpl String.length in L.
  rewrite L by lia. rewrite H.
  now destruct (SafeFs.isWindows s).
Qed.

(** [toVirtualPath] on a path that begins with the root (POSIX): the rest
    of the path, or ["/"] when nothing is left. *)
Lemma toVirtualPath_inside (s : SafeFs.SafeFilesystem) (rest : string) :
  SafeFs.isWindows s = false ->
  SafeFs.toVirtualPath s (SafeFs.root s +:+ rest) =
    if String.eqb rest "" then "/" else rest.
Proof.
  intros Hw. unfold SafeFs.toVirtualPath.
  pose proof (toVirtualPathLoop_spec (SafeFs.root s) "" (SafeFs.root s +:+ rest)
                (S (String.length (SafeFs.root s)))) as L.
  rewrite !string_app_nil_l in L. simpl String.length in L.
  rewrite L by lia. rewrite prefix_app, Hw, substr_app.
  now destruct rest.
Qed.

(** C1 (the code at the failing input).  With the virtual root ["/"], the
    virtual path ["/a/b"] is already in POSIX-normalized form, yet
    translating it to a real path and back yields ["a/b"]: the leading
    slash is lost, so the round trip does not give the normalized path. *)
Theorem C1_roundtrip_root_slash :
  let s := SafeFs.create false "/" false false in
  SafeFs.root s = "/" /\
  NodePath.normalize "/a/b" = "/a/b" /\
  SafeFs.toRealPath s "/a/b" = "/a/b" /\
  SafeFs.toVirtualPath s (SafeFs.toRealPath s "/a/b") = "a/b" /\
  SafeFs.toVirtualPath s (SafeFs.toRealPath s "/a/b") <> NodePath.normalize "/a/b".
Proof. cbv zeta. repeat split; try reflexivity. vm_compute. discriminate. Qed.

(** The same round trip under a root that is not ["/"]. *)
Example roundtrip_srv_pub :
  let s := SafeFs.create false "/srv/pub" false false in
  SafeFs.toVirtualPath s (SafeFs.toRealPath s "/a/../../etc//passwd") = "/etc/passwd"
  /\ NodePath.normalize "/a/../../etc//passwd" = "/etc/passwd"
  /\ SafeFs.toRealPath s "/../etc/passwd" = "/srv/pub/etc/passwd".
Proof. repeat split; reflexivity. Qed.

(** ** SafeFilesystem: the round trip under a root that does not end with a slash *)

Lemma segments_nonempty (s : string) : NodePath.segments s <> [].
Proof.
  induction s as [|c s IH]; simpl; [discriminate |].
  destruct (Ascii.eqb c NodePath.slash); [discriminate |].
  destruct (NodePath.segments s); discriminate.
Qed.

Lemma segments_noSlash (s : string) :
  Forall (fun seg => noSlash seg = true) (NodePath.segments s).
Proof.
  induction s as [|c s IH]; simpl.
  - repeat constructor.
  - destruct (Ascii.eqb c NodePath.slash) eqn:Hc.
    + constructor; [reflexivity | exact IH].
    + destruct (NodePath.segments s) as [|seg rest].
      * repeat constructor. simpl. now rewrite Hc.
      * inversion IH; subst. constructor; [|assumption].
        simpl. now rewrite Hc.
Qed.

Lemma segments_app_slash (a b : string) :
  NodePath.segments (a +:+ "/" +:+ b) = NodePath.segments a ++ NodePath.segments b.
Proof.
  induction a as [|c a IH].
  - reflexivity.
  - rewrite string_app_cons. cbn [NodePath.segments].
    destruct (Ascii.eqb c NodePath.slash).
    + now rewrite IH.
    + rewrite IH. pose proof (segments_nonempty a).
      destruct (NodePath.segments a); [congruence | reflexivity].
Qed.

Lemma segments_single (s : string) :
  noSlash s = true -> NodePath.segments s = [s].
Proof.
  induction s as [|c s IH]; simpl; intros H; [reflexivity |].
  apply andb_prop in H as [Hc Hs]. apply negb_true_iff in Hc.
  rewrite Hc, (IH Hs). reflexivity.
Qed.

Lemma joinSlash_cons (s : string) (rest : list string) :
  rest <> [] ->
  NodePath.joinSlash (s :: rest) = s +:+ "/" +:+ NodePath.joinSlash rest.
Proof. destruct rest; [congruence | reflexivity]. Qed.

Lemma segments_joinSlash (segs : list string) :
  Forall (fun seg => noSlash seg = true) segs -> segs <> [] ->
  NodePath.segments (NodePath.joinSlash segs) = segs.
Proof.
  induction 1 as [|s rest Hs Hrest IH]; intros Hne; [congruence |].
  destruct rest as [|s' rest'].
  - simpl. now apply segments_single.
  - rewrite joinSlash_cons by discriminate.
    rewrite segments_app_slash, segments_single by assumption.
    rewrite IH by discriminate. reflexivity.
Qed.

Lemma joinSlash_app (xs ys : list string) :
  xs <> [] -> ys <> [] ->
  NodePath.joinSlash (xs ++ ys)
  = NodePath.joinSlash xs +:+ "/" +:+ NodePath.joinSlash ys.
Proof.
  induction xs as [|x xs IH]; intros Hx Hy; [congruence |].
  destruct xs as [|x' xs'].
  - simpl app. rewrite joinSlash_cons by assumption. reflexivity.
  - change ((x :: x' :: xs') ++ ys) with (x :: (x' :: xs') ++ ys).
    rewrite !joinSlash_cons by (try discriminate; simpl; discriminate).
    rewrite IH by (assumption || discriminate).
    now rewrite !string_app_assoc.
Qed.

Lemma plain_spec (seg : string) :
  plain seg = true ->
  String.eqb seg "" = false /\ String.eqb seg "." = false /\
  String.eqb seg ".." = false /\ noSlash seg = true.
Proof.
  unfold plain. intros H.
  apply andb_prop in H as [H H4]. apply andb_prop in H as [H H3].
  apply andb_prop in H as [H1 H2].
  apply negb_true_iff in H1, H2, H3. auto.
Qed.

Lemma plain_noSlash (seg : string) : plain seg = true -> noSlash seg = true.
Proof. intros H. apply plain_spec in H. tauto. Qed.

Lemma plain_step (b : bool) (res : list string) (seg : string) :
  plain seg = true -> NodePath.normalizeStep b res seg = seg :: res.
Proof.
  intros H. apply plain_spec in H as (H1 & H2 & H3 & _).
  unfold NodePath.normalizeStep. now rewrite H1, H2, H3.
Qed.

Lemma fold_plain (b : bool) (ps st : list string) :
  Forall (fun seg => plain seg = true) ps ->
  fold_left (NodePath.normalizeStep b) ps st = rev ps ++ st.
Proof.
  intros H. revert st. induction H as [|p ps Hp Hps IH]; intros st; [reflexivity |].
  simpl. rewrite plain_step by assumption. rewrite IH.
  now rewrite <- app_assoc.
Qed.

Lemma step_keeps_plain (res : list string) (seg : string) :
  Forall (fun seg => plain seg = true) res -> noSlash seg = true ->
  Forall (fun seg => plain seg = true) (NodePath.normalizeStep false res seg).
Proof.
  intros Hres Hseg. unfold NodePath.normalizeStep.
  destruct (String.eqb seg "") eqn:E1; [exact Hres |].
  destruct (String.eqb seg ".") eqn:E2; [exact Hres |]. cbn [orb].
  destruct (String.eqb seg "..") eqn:E3.
  - destruct res as [|top rest]; [constructor |].
    destruct (String.eqb top ".."); [exact Hres | now inversion Hres].
  - constructor; [|exact Hres]. unfold plain. now rewrite E1, E2, E3, Hseg.
Qed.

Lemma fold_keeps_plain (segs res : list string) :
  Forall (fun seg => plain seg = true) res ->
  Forall (fun seg => noSlash seg = true) segs ->
  Forall (fun seg => plain seg = true)
    (fold_left (NodePath.normalizeStep false) segs res).
Proof.
  intros Hres Hsegs. revert res Hres.
  induction Hsegs as [|seg segs Hseg Hsegs IH]; intros res Hres; [exact Hres |].
  simpl. apply IH. now apply step_keeps_plain.
Qed.

Lemma kept_plain (path : string) :
  Forall (fun seg => plain seg = true) (kept path).
Proof.
  unfold kept. apply Forall_rev. apply fold_keeps_plain; [constructor |].
  apply segments_noSlash.
Qed.

Lemma startsWithSlash_app (a b : string) :
  NodePath.startsWithSlash a = true -> NodePath.startsWithSlash (a +:+ b) = true.
Proof. destruct a; [discriminate | intros H; exact H]. Qed.

Lemma startsWithSlash_nonempty (a : string) :
  NodePath.startsWithSlash a = true -> String.eqb a "" = false.
Proof. destruct a; [discriminate | reflexivity]. Qed.

Lemma endsWithSlash_cons (c : ascii) (s : string) :
  s <> "" -> NodePath.endsWithSlash (String c s) = NodePath.endsWithSlash s.
Proof. destruct s; [congruence | reflexivity]. Qed.

Lemma endsWithSlash_app (a b : string) :
  b <> "" -> NodePath.endsWithSlash (a +:+ b) = NodePath.endsWithSlash b.
Proof.
  intros Hb. induction a as [|c a IH]; [reflexivity |].
  rewrite string_app_cons, endsWithSlash_cons; [exact IH |].
  destruct a; [exact Hb | discriminate].
Qed.

Lemma noSlash_endsWithSlash (s : string) :
  noSlash s = true -> NodePath.endsWithSlash s = false.
Proof.
  induction s as [|c s IH]; [reflexivity |]. simpl noSlash. intros H.
  apply andb_prop in H as [Hc Hs]. apply negb_true_iff in Hc.
  destruct s; [exact Hc | exact (IH Hs)].
Qed.

Lemma plain_nonempty (s : string) : plain s = true -> s <> "".
Proof. intros H ->. discriminate. Qed.

Lemma joinSlash_plain_nonempty (ns : list string) :
  Forall (fun seg => plain seg = true) ns -> ns <> [] ->
  NodePath.joinSlash ns <> "".
Proof.
  intros H Hne. destruct H as [|s rest Hs Hrest]; [congruence |].
  apply plain_nonempty in Hs.
  destruct rest; [exact Hs |].
  rewrite joinSlash_cons by discriminate.
  destruct s; [congruence | discriminate].
Qed.

Lemma joinSlash_endsWithSlash (ns : list string) :
  Forall (fun seg => plain seg = true) ns ->
  NodePath.endsWithSlash (NodePath.joinSlash ns) = false.
Proof.
  induction 1 as [|s rest Hs Hrest IH]; [reflexivity |].
  destruct rest as [|s' rest'].
  - simpl. apply noSlash_endsWithSlash. now apply plain_noSlash.
  - rewrite joinSlash_cons by discriminate.
    rewrite endsWithSlash_app.
    + rewrite endsWithSlash_app; [exact IH |].
      apply joinSlash_plain_nonempty; [assumption | discriminate].
    + discriminate.
Qed.

Lemma eqb_false_of_ne (a b : string) : a <> b -> String.eqb a b = false.
Proof. intros H. now apply String.eqb_neq. Qed.

(** [normalize] on an absolute path, by the segments that are kept. *)
Lemma normalize_abs (v : string) :
  NodePath.startsWithSlash v = true ->
  NodePath.normalize v =
    match kept v with
    | [] => "/"
    | n :: ns => "/" +:+ (if NodePath.endsWithSlash v
                          then NodePath.joinSlash (n :: ns) +:+ "/"
                          else NodePath.joinSlash (n :: ns))
    end.
Proof.
  intros Habs. unfold NodePath.normalize, NodePath.normalizeString.
  rewrite (startsWithSlash_nonempty _ Habs), Habs. cbn [negb].
  fold (kept v). pose proof (kept_plain v) as Hp.
  destruct (kept v) as [|n ns] eqn:Hk; [reflexivity |].
  rewrite eqb_false_of_ne; [reflexivity |].
  apply joinSlash_plain_nonempty; [exact Hp | discriminate].
Qed.

Lemma normalize_abs_starts (v : string) :
  NodePath.startsWithSlash v = true ->
  NodePath.startsWithSlash (NodePath.normalize v) = true.
Proof.
  intros H. rewrite (normalize_abs _ H). now destruct (kept v).
Qed.

(** An absolute root in normalized form that does not end with a slash
    is a slash followed by its segments. *)
Lemma normalize_abs_no_trailing (v : string) :
  NodePath.startsWithSlash v = true ->
  NodePath.endsWithSlash (NodePath.normalize v) = false ->
  kept v <> [] /\ NodePath.normalize v = "/" +:+ NodePath.joinSlash (kept v).
Proof.
  intros Habs. rewrite (normalize_abs _ Habs).
  destruct (kept v) as [|n ns]; [discriminate |].
  destruct (NodePath.endsWithSlash v).
  - rewrite <- string_app_assoc, endsWithSlash_app by discriminate.
    discriminate.
  - intros _. split; [discriminate | reflexivity].
Qed.

Lemma kept_double_slash (p : string) : kept ("/" +:+ "/" +:+ p) = kept p.
Proof. unfold kept. now rewrite segments_app_slash. Qed.

(** [Path.join("/", p)] is [Path.normalize(p)] on an absolute path. *)
Lemma join_slash_abs (p : string) :
  NodePath.startsWithSlash p = true ->
  NodePath.join "/" p = NodePath.normalize p.
Proof.
  intros Habs. unfold NodePath.join.
  rewrite (startsWithSlash_nonempty _ Habs). cbn [String.eqb Ascii.eqb].
  change (String.eqb "/" "") with false. cbv iota.
  rewrite (normalize_abs ("/" +:+ "/" +:+ p)) by reflexivity.
  rewrite (normalize_abs p Habs), kept_double_slash.
  rewrite <- (string_app_assoc "/" "/" p).
  rewrite endsWithSlash_app; [reflexivity |].
  destruct p; [discriminate | discriminate].
Qed.

Lemma step_empty (b : bool) (res : list string) :
  NodePath.normalizeStep b res "" = res.
Proof. reflexivity. Qed.

Lemma segments_slash (s : string) :
  NodePath.segments ("/" +:+ s) = "" :: NodePath.segments s.
Proof. reflexivity. Qed.

Lemma segments_trailing (s : string) :
  NodePath.segments (s +:+ "/") = NodePath.segments s ++ [""].
Proof.
  rewrite <- (string_app_nil_r (s +:+ "/")), string_app_assoc.
  apply segments_app_slash.
Qed.

Lemma fold_root (ns : list string) :
  Forall (fun seg => plain seg = true) ns -> ns <> [] ->
  fold_left (NodePath.normalizeStep false)
    (NodePath.segments ("/" +:+ NodePath.joinSlash ns)) [] = rev ns.
Proof.
  intros Hns Hn. rewrite segments_slash. cbn [fold_left]. rewrite step_empty.
  rewrite segments_joinSlash;
    [| eapply Forall_impl; [exact Hns | apply plain_noSlash] | assumption].
  rewrite fold_plain by assumption. apply app_nil_r.
Qed.

(** The segments kept from [r/q], for a root [r] and a path [q] both in
    normalized absolute form. *)
Lemma kept_root_path (ns qs : list string) (tr : bool) :
  Forall (fun seg => plain seg = true) ns -> ns <> [] ->
  Forall (fun seg => plain seg = true) qs -> qs <> [] ->
  kept (("/" +:+ NodePath.joinSlash ns) +:+ "/" +:+
        ("/" +:+ (if tr then NodePath.joinSlash qs +:+ "/"
                  else NodePath.joinSlash qs)))
  = ns ++ qs.
Proof.
  intros Hns Hn Hqs Hq. unfold kept.
  rewrite segments_app_slash, fold_left_app.
  rewrite fold_root; [| assumption | assumption].
  rewrite segments_slash. cbn [fold_left]. rewrite step_empty.
  assert (Hseg : NodePath.segments (NodePath.joinSlash qs) = qs)
    by (apply segments_joinSlash;
        [eapply Forall_impl; [exact Hqs | apply plain_noSlash] | assumption]).
  destruct tr.
  - rewrite segments_trailing, Hseg, fold_left_app.
    rewrite (fold_plain false qs) by assumption. cbn [fold_left]. rewrite step_empty.
    now rewrite rev_app_distr, !rev_involutive.
  - rewrite Hseg, fold_plain by assumption.
    now rewrite rev_app_distr, !rev_involutive.
Qed.

Lemma kept_root_slash (ns : list string) :
  Forall (fun seg => plain seg = true) ns -> ns <> [] ->
  kept (("/" +:+ NodePath.joinSlash ns) +:+ "/" +:+ "/") = ns.
Proof.
  intros Hns Hn. unfold kept.
  rewrite segments_app_slash, fold_left_app.
  rewrite fold_root; [| assumption | assumption].
  change (NodePath.segments "/") with ["" ; ""]. cbn [fold_left].
  rewrite !step_empty. apply rev_involutive.
Qed.

(** [Path.join(root, q)] appends [q] to the root, for a root and a path
    both normalized and absolute, the root not ending with a slash. *)
Lemma join_root_normalized (v p : string) :
  NodePath.startsWithSlash v = true ->
  NodePath.endsWithSlash (NodePath.normalize v) = false ->
  NodePath.startsWithSlash p = true ->
  NodePath.join (NodePath.normalize v) (NodePath.normalize p)
  = NodePath.normalize v +:+ NodePath.normalize p.
Proof.
  intros Hv Hend Hp.
  destruct (normalize_abs_no_trailing v Hv Hend) as [Hn HR].
  pose proof (kept_plain v) as Hns. pose proof (kept_plain p) as Hqs.
  pose proof (normalize_abs_starts _ Hv) as HRs.
  pose proof (normalize_abs_starts _ Hp) as Hqstart.
  unfold NodePath.join.
  rewrite (startsWithSlash_nonempty _ HRs), (startsWithSlash_nonempty _ Hqstart).
  rewrite normalize_abs by (now apply startsWithSlash_app).
  rewrite endsWithSlash_app
    by (destruct (NodePath.normalize p); discriminate).
  rewrite HR. rewrite (normalize_abs p Hp).
  destruct (kept p) as [|q qs] eqn:Hk.
  - rewrite kept_root_slash; [| assumption | assumption].
    change (NodePath.endsWithSlash ("/" +:+ "/")) with true. cbv iota.
    destruct (kept v) as [|n ns]; [congruence |].
    now rewrite !string_app_assoc.
  - rewrite kept_root_path; [| assumption | assumption | assumption | discriminate].
    assert (Hends : NodePath.endsWithSlash
              ("/" +:+ "/" +:+ (if NodePath.endsWithSlash p
                                then NodePath.joinSlash (q :: qs) +:+ "/"
                                else NodePath.joinSlash (q :: qs)))
            = NodePath.endsWithSlash p).
    { destruct (NodePath.endsWithSlash p).
      - rewrite <- !string_app_assoc. now rewrite endsWithSlash_app by discriminate.
      - rewrite <- string_app_assoc.
        rewrite endsWithSlash_app
          by (apply joinSlash_plain_nonempty; [assumption | discriminate]).
        now apply joinSlash_endsWithSlash. }
    rewrite Hends.
    destruct (kept v ++ q :: qs) as [|x xs] eqn:Happ;
      [destruct (kept v); discriminate |].
    rewrite <- Happ. rewrite joinSlash_app; [| assumption | discriminate].
    destruct (NodePath.endsWithSlash p); now rewrite !string_app_assoc.
Qed.

(** The round trip under a root that does not end with a slash. *)
Theorem toVirtualPath_toRealPath (s : SafeFs.SafeFilesystem) (v p : string) :
  SafeFs.isWindows s = false ->
  SafeFs.root s = NodePath.normalize v ->
  NodePath.startsWithSlash v = true ->
  NodePath.endsWithSlash (SafeFs.root s) = false ->
  NodePath.startsWithSlash p = true ->
  SafeFs.toVirtualPath s (SafeFs.toRealPath s p) = NodePath.normalize p.
Proof.
  intros Hw Hroot Hv Hend Hp. unfold SafeFs.toRealPath.
  rewrite (join_slash_abs p Hp). rewrite Hroot in Hend |- *.
  rewrite (join_root_normalized v p Hv Hend Hp), <- Hroot.
  rewrite (toVirtualPath_inside s _ Hw).
  now rewrite (startsWithSlash_nonempty _ (normalize_abs_starts _ Hp)).
Qed.

(** The root as the server sets it ([path.resolve] gives an absolute
    normalized path without a trailing slash, except for ["/"]). *)
Example roundtrip_export (p : string) :
  NodePath.startsWithSlash p = true ->
  let s := SafeFs.create false "/srv/export" false false in
  SafeFs.toVirtualPath s (SafeFs.toRealPath s p) = NodePath.normalize p.
Proof.
  intros Hp. exact (toVirtualPath_toRealPath
                      (SafeFs.create false "/srv/export" false false)
                      "/srv/export" p eq_refl eq_refl eq_refl eq_refl Hp).
Qed.

(** ** SafeFilesystem: read-only mode *)

(** C2.  In read-only mode, [open] with flags other than ["r"], and
    [write], [setstat], [fsetstat], [unlink], [mkdir], [rmdir], [rename],
    [symlink], [link] and [fcopy] hand an EROFS error to the callback; the
    wrapper is left as it was: no call has been added to those received
    by the underlying filesystem, and the handle table is unchanged. *)
Theorem C2_read_only_no_underlying_call
    (respond : list SafeFs.FsCall -> SafeFs.FsCall -> SafeFs.Reply)
    (hasFcopy : bool) (fuel : nat)
    (s : SafeFs.SafeFilesystem) (op : SafeFs.MutatingOp) :
  SafeFs.isReadOnly s = true ->
  SafeFs.guarded op = true ->
  exists s',
    SafeFs.run respond hasFcopy fuel s op = Some (s', SafeFs.fail "EROFS")
    /\ SafeFs.calls s' = SafeFs.calls s
    /\ s' = s.
Proof.
  intros Hro Hg. exists s.
  destruct op; simpl in Hg |- *;
    unfold SafeFs.open, SafeFs.write, SafeFs.setstat, SafeFs.fsetstat,
      SafeFs.unlink, SafeFs.mkdir, SafeFs.rmdir, SafeFs.rename,
      SafeFs.symlink, SafeFs.link, SafeFs.fcopy;
    rewrite Hro; try rewrite Hg; simpl; auto.
Qed.

Lemma C2_read_only_witness :
  exists s',
    SafeFs.run acceptAll false 0 (SafeFs.create false "/srv/pub" true false)
               (SafeFs.OpOpen "/f" (SafeFs.FlagStr "w") noAttrs)
      = Some (s', SafeFs.fail "EROFS")
    /\ SafeFs.calls s' = SafeFs.calls (SafeFs.create false "/srv/pub" true false)
    /\ s' = SafeFs.create false "/srv/pub" true false.
Proof.
  exact (C2_read_only_no_underlying_call acceptAll false 0
           (SafeFs.create false "/srv/pub" true false)
           (SafeFs.OpOpen "/f" (SafeFs.FlagStr "w") noAttrs)
           eq_refl eq_refl).
Defined.

(** The guard is what stops the call: the same [unlink] on a writable
    wrapper reaches the underlying filesystem, with the jailed path. *)
Example unlink_writable_reaches_fs :
  let s := SafeFs.create false "/srv/pub" false false in
  SafeFs.calls (fst (SafeFs.unlink acceptAll s "/../x")) = [SafeFs.FsUnlink "/srv/pub/x"].
Proof. reflexivity. Qed.

(** In read-only mode [open] with flags ["r"] is not stopped. *)
Example open_r_read_only_reaches_fs :
  let s := SafeFs.create false "/srv/pub" true false in
  SafeFs.calls (fst (SafeFs.open acceptAll s "/f" (SafeFs.FlagStr "r") noAttrs))
    = [SafeFs.FsOpen "/srv/pub/f" (SafeFs.FlagStr "r") noAttrs].
Proof. reflexivity. Qed.

(** ** WebSocketChannel: the error handed to the close listener *)




(** In a browser (channel-web.ts) code 1011 does not carry the reason. *)
Example web_1011_drops_reason :
  Channel.interpretCloseStatusWeb false 1011 "boom"
    = inr ("ECONNRESET", "Connection reset").
Proof. reflexivity. Qed.

(** ** SftpClientCore: reads answered by empty DATA packets *)

Ltac core_simpl :=
  cbn [Client.setId Client.setRequests Client.setHost Client.setExtensions
       Client.setFeatures Client.setBound Client.log
       Client._host Client.chan Client._id Client._requests
       Client._extensions Client._features Client._bound Client.trace
       negb Wire.pid Wire.ptype Wire.pbody
       Client.responseParser Client.callback Client.info].

Section ReadRetry.

Import Client Wire.

Variables (cb : Callback) (h : Buffer) (buffer : option Buffer)
          (offset position : Z) (inf : SftpCommandInfo).



End ReadRetry.



Section ReadRetryChain.

Import Client Wire.

Variables (st : SftpClientCore) (i : Z) (tag : nat) (h : Buffer)
          (buffer : option Buffer) (offset length position : Z).

Hypothesis Hhost : _host st = true.
Hypothesis Hid : _id st = Some i.
Hypothesis Hfree :
  forall k : nat, (k <= 5)%nat ->
    _requests st !! Some (Nat.iter k nextId i) = None.
Hypothesis Hlen : 0 <= length <= MAX_READ_BLOCK_LENGTH.
Hypothesis Hpos : checkPosition position = true.
Hypothesis Hbuf :
  match buffer with
  | Some b => checkBuffer b offset length
  | None => None
  end = None.



End ReadRetryChain.




(** ** SftpClientCore: the INIT/VERSION handshake *)






(** The parser is reached by the packets that carry no request id,
    VERSION and INIT: such a packet is matched with the pending INIT
    request. *)
Lemma process_handshake_reply (st : Client.SftpClientCore) (tag : nat)
    (t : Z) (fields : list Wire.Field) :
  Client._requests st = {[None := initRequest tag]} ->
  t = Wire.VERSION \/ t = Wire.INIT ->
  Client._process st t fields =
    Client.parseInit (Client.setRequests st ∅)
      (Wire.mkPacket (Wire.TNum t) None fields) (Client.BindCb tag) initInfo.
Proof.
  intros Hreq Ht. unfold Client._process.
  assert (Hrd : Wire.SftpPacketReader t fields
                = Some (Wire.mkPacket (Wire.TNum t) None fields))
    by (destruct Ht as [-> | ->]; reflexivity).
  rewrite Hrd. core_simpl.
  rewrite Hreq, lookup_singleton_eq, delete_singleton_eq. reflexivity.
Qed.

(** A packet of any other type carries a request id and is not matched
    with the INIT request: it raises "Unknown response ID", the channel
    stays as it is and the bind callback is not invoked. *)
Lemma process_other_type_unknown_id (st : Client.SftpClientCore) (tag : nat)
    (t id : Z) (fields : list Wire.Field) :
  Client._requests st = {[None := initRequest tag]} ->
  t <> Wire.INIT -> t <> Wire.VERSION -> t <> Wire.EXTENDED ->
  Client.onMessage st t (Wire.FInt32 id :: fields) =
    Client.log st (Client.Emit "error" (Some (Error "Unknown response ID"))).
Proof.
  intros Hreq Hi Hv He.
  unfold Client.onMessage, Client._process, Wire.SftpPacketReader.
  rewrite (proj2 (Z.eqb_neq _ _) Hi), (proj2 (Z.eqb_neq _ _) Hv),
    (proj2 (Z.eqb_neq _ _) He).
  cbn [orb]. cbv iota. core_simpl.
  now rewrite Hreq, lookup_singleton_ne by discriminate.
Qed.

(** A STATUS packet in answer to INIT: no close, no bind callback. *)
Example status_reply_to_init :
  let st := Client.onMessage boundClient Wire.STATUS
              [Wire.FInt32 0; Wire.FInt32 4; Wire.FString "x"; Wire.FString ""] in
  Channel.wsClosed (Client.chan st) = [] /\
  Client.trace st = [Client.Emit "error" (Some (Error "Unknown response ID"))].
Proof. vm_compute. split; reflexivity. Qed.

(** ** SftpClientCore: request ids *)

(** The counter advances by one modulo 2^32, as a signed 32-bit value. *)
Lemma nextId_spec (j : Z) :
  Client.nextId j mod 2 ^ 32 = (j + 1) mod 2 ^ 32 /\
  - 2 ^ 31 <= Client.nextId j < 2 ^ 31.
Proof.
  unfold Client.nextId, Client.toInt32.
  change 0xffffffff with (Z.ones 32).
  rewrite Z.land_ones by lia.
  change (2 ^ 32) with 4294967296. change (2 ^ 31) with 2147483648.
  split.
  - rewrite Zminus_mod, Zmod_mod, <- Zminus_mod.
    replace ((j + 1) mod 4294967296 + 2147483648 - 2147483648)
      with ((j + 1) mod 4294967296) by lia.
    apply Zmod_mod.
  - pose proof (Z.mod_pos_bound ((j + 1) mod 4294967296 + 2147483648)
                  4294967296 ltac:(lia)).
    lia.
Qed.

(** [issue] on a connected client: the request goes out under the
    current value of the counter, which then advances; if that id is
    still in flight the method throws instead, the counter having
    advanced all the same. *)
Lemma issue_fresh (st : Client.SftpClientCore) (ty : Wire.PacketType)
    (fields : list Wire.Field) (cb : Client.Callback) (parser : Client.Parser)
    (inf : SftpCommandInfo) (i : Z) :
  Client._host st = true ->
  Client._id st = Some i ->
  Wire.typeIs ty Wire.INIT = false ->
  Client._requests st !! Some i = None ->
  Client.issue st ty fields cb parser inf =
    Client.Done
      (Client.mkCore true
         (Channel.send (Client.chan st) (Wire.mkPacket ty (Some i) fields))
         (Some (Client.nextId i))
         (<[Some i := Client.mkRequest cb parser inf]> (Client._requests st))
         (Client._extensions st) (Client._features st) (Client._bound st)
         (Client.trace st)).
Proof.
  intros Hh Hid Hty Hfree.
  unfold Client.issue, Client.getRequest. rewrite Hty, Hid.
  unfold Client.execute. core_simpl. rewrite Hh. core_simpl.
  rewrite Hfree. reflexivity.
Qed.

Lemma issue_duplicate (st : Client.SftpClientCore) (ty : Wire.PacketType)
    (fields : list Wire.Field) (cb : Client.Callback) (parser : Client.Parser)
    (inf : SftpCommandInfo) (i : Z) :
  Client._host st = true ->
  Client._id st = Some i ->
  Wire.typeIs ty Wire.INIT = false ->
  is_Some (Client._requests st !! Some i) ->
  Client.issue st ty fields cb parser inf =
    Client.Throw (Error "Duplicate request")
                 (Client.setId st (Some (Client.nextId i))).
Proof.
  intros Hh Hid Hty [r Hr].
  unfold Client.issue, Client.getRequest. rewrite Hty, Hid.
  unfold Client.execute. core_simpl. rewrite Hh. core_simpl.
  rewrite Hr. reflexivity.
Qed.

(** A request answered at once leaves the table as it was and advances
    the counter. *)
Lemma exchange_step (st : Client.SftpClientCore) (j : Z) :
  Client._host st = true ->
  Client._id st = Some j ->
  Client._requests st !! Some j = None ->
  Client._host (exchange st) = true /\
  Client._id (exchange st) = Some (Client.nextId j) /\
  Client._requests (exchange st) = Client._requests st.
Proof.
  intros Hh Hid Hfree. unfold exchange. rewrite Hid.
  unfold Client.unlink, Client.command.
  change (Wire.REMOVE =? 0) with false. cbv iota.
  rewrite (issue_fresh st (Wire.TNum Wire.REMOVE) _ _ _ _ j Hh Hid eq_refl Hfree).
  cbn [stateOf]. unfold Client.onMessage, Client._process, statusOk.
  change (Wire.SftpPacketReader Wire.STATUS ?f)
    with (Some (Wire.mkPacket (Wire.TNum Wire.STATUS) (Some j)
            [Wire.FInt32 Client.OK; Wire.FString ""; Wire.FString ""])).
  cbv iota. core_simpl.
  rewrite lookup_insert_eq, delete_insert_id by exact Hfree.
  unfold Client.runParser. core_simpl.
  unfold Client.parseStatus, Client.checkResponse. core_simpl.
  change (Wire.typeIs (Wire.TNum Wire.STATUS) Wire.STATUS) with true.
  cbv iota. unfold Client.readStatus. cbn [Wire.readInt32 Wire.readString].
  change (Client.OK =? Client.OK) with true. cbv iota.
  unfold Client.invoke. core_simpl. repeat split.
Qed.

(** The state after [n] answered requests on top of the held one. *)
Lemma exchanges_counter (n : nat) :
  Z.of_nat n <= 4294967295 ->
  Client._host (Nat.iter n exchange heldClient) = true /\
  Client._requests (Nat.iter n exchange heldClient) = Client._requests heldClient /\
  exists j, Client._id (Nat.iter n exchange heldClient) = Some j /\
            j mod 2 ^ 32 = (2 + Z.of_nat n) mod 2 ^ 32 /\
            - 2 ^ 31 <= j < 2 ^ 31.
Proof.
  induction n as [|n IH]; intros Hn.
  - change (Nat.iter 0 exchange heldClient) with heldClient.
    repeat split. exists 2. repeat split; try reflexivity; lia.
  - destruct IH as (Hh & Hr & j & Hid & Hmod & Hrange); [lia |].
    rewrite Nat.iter_succ.
    assert (Hj : j <> 1).
    { intros ->. change (2 ^ 32) with 4294967296 in Hmod.
      change (1 mod 4294967296) with 1 in Hmod.
      symmetry in Hmod.
      destruct (Z.eq_dec (2 + Z.of_nat n) 4294967296) as [E | E].
      - rewrite E in Hmod. discriminate Hmod.
      - rewrite Z.mod_small in Hmod by lia. lia. }
    assert (Hfree : Client._requests (Nat.iter n exchange heldClient)
                      !! Some j = None).
    { rewrite Hr. change (Client._requests heldClient)
        with (<[Some 1 :=
                 Client.mkRequest (Client.UserCb 1) Client.PStatus
                   (mkInfo "unlink" (Some "/held") None [])]>
                (∅ : gmap (option Z) Client.SftpRequest)).
      rewrite lookup_insert_ne by congruence. apply lookup_empty. }
    destruct (exchange_step _ j Hh Hid Hfree) as (Hh' & Hid' & Hr').
    split; [exact Hh' |]. split; [now rewrite Hr' |].
    exists (Client.nextId j). split; [exact Hid' |].
    destruct (nextId_spec j) as [Hm Hb]. split; [| exact Hb].
    rewrite Hm. rewrite Zplus_mod, Hmod, <- Zplus_mod.
    f_equal. lia.
Qed.

(** After 2^32 - 1 answered requests the counter is back at 1, the id of
    the request still in flight. *)
Lemma exchanges_wrap (n : nat) :
  Z.of_nat n = 4294967295 ->
  Client._host (Nat.iter n exchange heldClient) = true /\
  Client._id (Nat.iter n exchange heldClient) = Some 1 /\
  Client._requests (Nat.iter n exchange heldClient) = Client._requests heldClient.
Proof.
  intros Hn.
  destruct (exchanges_counter n) as (Hh & Hr & j & Hid & Hmod & Hb); [lia |].
  split; [exact Hh |]. split; [| exact Hr].
  rewrite Hid. f_equal. rewrite Hn in Hmod.
  change ((2 + 4294967295) mod 2 ^ 32) with 1 in Hmod.
  change (2 ^ 32) with 4294967296 in *. change (2 ^ 31) with 2147483648 in *.
  destruct (Z_lt_le_dec j 0) as [Hneg | Hpos].
  - rewrite <- (Z_mod_plus_full j 1 4294967296) in Hmod.
    rewrite Z.mod_small in Hmod by lia. lia.
  - rewrite Z.mod_small in Hmod by lia. exact Hmod.
Qed.

Lemma wrapCount_spec : Z.of_nat wrapCount = 4294967295.
Proof.
  assert (H : 0 <= 4294967295) by (intros H; discriminate H).
  exact (Z2Nat.id 4294967295 H).
Qed.

Lemma wrappedClient_state :
  Client._host wrappedClient = true /\
  Client._id wrappedClient = Some 1 /\
  Client._requests wrappedClient = Client._requests heldClient.
Proof. exact (exchanges_wrap wrapCount wrapCount_spec). Qed.

(** An operation on a client whose counter stands at an id in flight:
    it throws, and the channel has been sent nothing. *)
Lemma unlink_duplicate (st : Client.SftpClientCore) (p : string)
    (cb : Client.Callback) (i : Z) :
  Client._host st = true ->
  Client._id st = Some i ->
  is_Some (Client._requests st !! Some i) ->
  Client.unlink st p cb =
    Client.Throw (Error "Duplicate request")
                 (Client.setId st (Some (Client.nextId i))) /\
  Channel.wsSent (Client.chan (Client.setId st (Some (Client.nextId i)))) =
    Channel.wsSent (Client.chan st).
Proof.
  intros Hh Hid Hin. split; [| reflexivity].
  unfold Client.unlink, Client.command.
  change (Wire.REMOVE =? 0) with false. cbv iota.
  now rewrite (issue_duplicate st (Wire.TNum Wire.REMOVE) _ _ _ _ i Hh Hid eq_refl Hin).
Qed.

Lemma held_in_flight (st : Client.SftpClientCore) :
  Client._requests st = Client._requests heldClient ->
  is_Some (Client._requests st !! Some 1).
Proof. intros ->. eexists. reflexivity. Qed.

(** C6 (counterexample).  A client holds request 1 unanswered while
    2^32 - 1 further requests are sent and answered, so that the counter
    is back at 1.  The next operation is not given a free id: [unlink]
    throws "Duplicate request", nothing is sent, the request in flight
    stays, and the counter moves on. *)
Theorem C6_id_in_use_is_not_skipped :
  (Client._host wrappedClient = true /\
   Client._id wrappedClient = Some 1 /\
   is_Some (Client._requests wrappedClient !! Some 1)) /\
  (Client.unlink wrappedClient "/again" (Client.UserCb 3) =
     Client.Throw (Error "Duplicate request")
                  (Client.setId wrappedClient (Some (Client.nextId 1))) /\
   Channel.wsSent (Client.chan
       (Client.setId wrappedClient (Some (Client.nextId 1)))) =
     Channel.wsSent (Client.chan wrappedClient)).
Proof.
  destruct wrappedClient_state as (Hh & Hid & Hr).
  pose proof (held_in_flight wrappedClient Hr) as Hin.
  pose proof (unlink_duplicate wrappedClient "/again" (Client.UserCb 3) 1
                Hh Hid Hin) as Hu.
  refine (conj (conj Hh (conj Hid Hin)) Hu).
Qed.

(** C6 (amended).  INIT is sent without an id, is stored under no integer
    id, and sets the counter to 1.  Every later request of a connected
    client takes the current value [i] of the counter as its id, and the
    counter advances to [i + 1] modulo 2^32, kept as a signed 32-bit
    value.  An id in use is not skipped: if [i] is still in flight the
    operation throws "Duplicate request" before anything is sent or
    stored, the counter having advanced, so that an id in flight is never
    reused. *)
Theorem C6_request_id_allocation
    (st : Client.SftpClientCore) (ty : Wire.PacketType)
    (fields : list Wire.Field) (cb : Client.Callback) (parser : Client.Parser)
    (inf : SftpCommandInfo) (i : Z) :
  Client._host st = true ->
  Client._id st = Some i ->
  Wire.typeIs ty Wire.INIT = false ->
  (Client.nextId i mod 2 ^ 32 = (i + 1) mod 2 ^ 32 /\
   - 2 ^ 31 <= Client.nextId i < 2 ^ 31)
  /\ (Client._requests st !! Some i = None ->
      Client.issue st ty fields cb parser inf =
        Client.Done
          (Client.mkCore true
             (Channel.send (Client.chan st) (Wire.mkPacket ty (Some i) fields))
             (Some (Client.nextId i))
             (<[Some i := Client.mkRequest cb parser inf]> (Client._requests st))
             (Client._extensions st) (Client._features st) (Client._bound st)
             (Client.trace st)))
  /\ (is_Some (Client._requests st !! Some i) ->
      Client.issue st ty fields cb parser inf =
        Client.Throw (Error "Duplicate request")
                     (Client.setId st (Some (Client.nextId i))))
  /\ (forall (host : Channel.WebSocketChannel) (cb0 : Client.Callback),
      Client._init Client.create host cb0 =
        Client.Done
          (Client.mkCore true
             (Channel.send host (Wire.mkPacket (Wire.TNum Wire.INIT) None
                                               [Wire.FInt32 3]))
             (Some 1)
             {[None := Client.mkRequest cb0 (Client.PInit cb0) initInfo]}
             ∅ ∅ false [])).
Proof.
  intros Hh Hid Hty. split; [apply nextId_spec |].
  split; [now apply issue_fresh |].
  split; [now apply issue_duplicate |].
  intros host cb0. reflexivity.
Qed.

Lemma C6_request_id_allocation_witness :
  Client.issue readyClient (Wire.TNum Wire.REMOVE) [Wire.FString "/a"]
               (Client.UserCb 1) Client.PStatus
               (mkInfo "unlink" (Some "/a") None []) =
    Client.Done
      (Client.mkCore true
         (Channel.send (Client.chan readyClient)
            (Wire.mkPacket (Wire.TNum Wire.REMOVE) (Some 1) [Wire.FString "/a"]))
         (Some (Client.nextId 1))
         (<[Some 1 := Client.mkRequest (Client.UserCb 1) Client.PStatus
                        (mkInfo "unlink" (Some "/a") None [])]>
            (Client._requests readyClient))
         (Client._extensions readyClient) (Client._features readyClient)
         (Client._bound readyClient) (Client.trace readyClient)).
Proof.
  exact (proj1 (proj2 (C6_request_id_allocation readyClient
                         (Wire.TNum Wire.REMOVE) [Wire.FString "/a"]
                         (Client.UserCb 1) Client.PStatus
                         (mkInfo "unlink" (Some "/a") None []) 1
                         eq_refl eq_refl eq_refl)) eq_refl).
Defined.

(** The first ids handed out after the handshake are 1, 2, 3; at the top
    of the signed range the counter goes to -2^31. *)
Example first_ids :
  Client._id readyClient = Some 1 /\
  Client.nextId 1 = 2 /\ Client.nextId 2 = 3 /\
  Client.nextId 2147483647 = -2147483648 /\ Client.nextId (-1) = 0.
Proof. repeat split; reflexivity. Qed.

(** ** SftpFuse: the link cache after a failed readlink *)

Ltac fuse_simpl :=
  cbn [Fuse.setData Fuse.setAttrCache Fuse.setDirCache Fuse.setLinkCache
       Fuse.setReadTracking Fuse.setSftp
       Fuse.state Fuse.data Fuse.attrCache Fuse.dirCache Fuse.linkCache
       Fuse.readTracking Fuse.readTrackingModified Fuse.hidePath Fuse.sftp
       Fuse.status Fuse.value fst snd].


Lemma isNotReady_ready (s : Fuse.SftpFuse) :
  Fuse.state s = Fuse.Ready -> Fuse.isNotReady s = false.
Proof. unfold Fuse.isNotReady. now intros ->. Qed.

(** C10.  The adapter is ready, has a link cache, and holds no live entry
    for [path]; the client's readlink fails with [e] at time [now].  The
    error is reported, and the undefined target is stored: every readlink
    on the same path before the entry expires is answered from the cache
    with status 0 and an undefined target, without a further request. *)
Theorem C10_failed_readlink_is_cached
    (errnoTable : string -> option Z)
    (respond : list Fuse.SftpCall -> Fuse.SftpCall -> Fuse.Reply)
    (s : Fuse.SftpFuse) (path : string) (now now' : Z)
    (c : Fuse.TTLCache (option string)) (e : SftpError) :
  Fuse.state s = Fuse.Ready ->
  Fuse.linkCache s = Some c ->
  Fuse.has c path now = false ->
  respond (Fuse.sftp s) (Fuse.CReadlink path) = Fuse.ReplyErr e ->
  now <= now' < now + Fuse.ttl c ->
  snd (Fuse.readlink errnoTable respond s path now) =
    Fuse.Cb (Fuse.mkCb (Fuse.getErrno errnoTable e) Fuse.NoValue)
  /\ Fuse.linkCache (fst (Fuse.readlink errnoTable respond s path now)) =
       Some (Fuse.set c path None now)
  /\ Fuse.sftp (fst (Fuse.readlink errnoTable respond s path now)) =
       Fuse.sftp s ++ [Fuse.CReadlink path]
  /\ Fuse.readlink errnoTable respond
       (fst (Fuse.readlink errnoTable respond s path now)) path now' =
       (fst (Fuse.readlink errnoTable respond s path now),
        Fuse.Cb (Fuse.mkCb 0 (Fuse.Target None))).
Proof.
  intros Hready Hlink Hmiss Herr Hnow.
  assert (H1 : Fuse.readlink errnoTable respond s path now =
    (Fuse.setLinkCache (Fuse.setSftp s (Fuse.sftp s ++ [Fuse.CReadlink path]))
                       (Some (Fuse.set c path None now)),
     Fuse.Cb (Fuse.mkCb (Fuse.getErrno errnoTable e) Fuse.NoValue))).
  { unfold Fuse.readlink. rewrite (isNotReady_ready s Hready), Hlink.
    cbn [Fuse.hasOpt]. rewrite Hmiss. unfold Fuse.callSftp. rewrite Herr.
    fuse_simpl. rewrite Hlink. reflexivity. }
  rewrite H1. fuse_simpl. repeat split.
  unfold Fuse.readlink, Fuse.isNotReady. fuse_simpl. rewrite Hready.
  unfold Fuse.hasOpt, Fuse.has, Fuse.get, Fuse.set. cbn [Fuse.entries Fuse.ttl].
  rewrite lookup_insert_eq.
  rewrite (proj2 (Z.ltb_lt now' (now + Fuse.ttl c))) by lia.
  reflexivity.
Qed.

Lemma C10_failed_readlink_witness :
  Fuse.readlink linuxErrno (statusServer Client.NO_SUCH_FILE "No such file")
    (fst (Fuse.readlink linuxErrno
            (statusServer Client.NO_SUCH_FILE "No such file")
            freshFuse "/l" 1000)) "/l" 20999 =
    (fst (Fuse.readlink linuxErrno
            (statusServer Client.NO_SUCH_FILE "No such file")
            freshFuse "/l" 1000),
     Fuse.Cb (Fuse.mkCb 0 (Fuse.Target None))).
Proof.
  assert (Hnow : 1000 <= 20999 < 1000 + 20000) by lia.
  exact (proj2 (proj2 (proj2
    (C10_failed_readlink_is_cached linuxErrno
       (statusServer Client.NO_SUCH_FILE "No such file")
       freshFuse "/l" 1000 20999 (Fuse.newCache 20000)
       (Client.createError Client.NO_SUCH_FILE "No such file"
          (mkInfo "readlink" (Some "/l") None []))
       eq_refl eq_refl eq_refl eq_refl Hnow)))).
Defined.

(** Once the entry has expired the request is made again. *)
Example readlink_after_ttl :
  let srv := statusServer Client.NO_SUCH_FILE "No such file" in
  let s1 := fst (Fuse.readlink linuxErrno srv freshFuse "/l" 1000) in
  Fuse.sftp (fst (Fuse.readlink linuxErrno srv s1 "/l" 21000)) =
    [Fuse.CReadlink "/l"; Fuse.CReadlink "/l"]
  /\ snd (Fuse.readlink linuxErrno srv s1 "/l" 21000) =
       Fuse.Cb (Fuse.mkCb (-2) Fuse.NoValue).
Proof. vm_compute. split; reflexivity. Qed.

(** ** SftpFuse: errors during a flush *)

(** The codes whose error carries errno -2 in the client's taxonomy. *)
Lemma createError_errno_minus2 (nativeCode : Z) (msg : string)
    (inf : SftpCommandInfo) :
  errno (Client.createError nativeCode msg inf) = Some (-2) <->
  (nativeCode = Client.OK \/ nativeCode = Client.FAILURE
   \/ nativeCode = Client.BAD_MESSAGE).
Proof.
  unfold Client.createError, Client.errorCode,
    Client.OK, Client.FAILURE, Client.BAD_MESSAGE, Client.EOF,
    Client.NO_SUCH_FILE, Client.PERMISSION_DENIED, Client.NO_CONNECTION,
    Client.CONNECTION_LOST, Client.OP_UNSUPPORTED.
  destruct (nativeCode =? 1) eqn:E1; [cbn; split; [discriminate | lia] |].
  destruct (nativeCode =? 2) eqn:E2; [cbn; split; [discriminate | lia] |].
  destruct (nativeCode =? 3) eqn:E3; [cbn; split; [discriminate | lia] |].
  destruct (nativeCode =? 0) eqn:E0; [cbn; split; [lia | reflexivity] |].
  destruct (nativeCode =? 4) eqn:E4; [cbn; split; [lia | reflexivity] |].
  destruct (nativeCode =? 5) eqn:E5; [cbn; split; [lia | reflexivity] |].
  cbn [orb].
  destruct (nativeCode =? 6) eqn:E6; [cbn; split; [discriminate | lia] |].
  destruct (nativeCode =? 7) eqn:E7; [cbn; split; [discriminate | lia] |].
  destruct (nativeCode =? 8) eqn:E8; [cbn; split; [discriminate | lia] |].
  cbn. split; [discriminate | lia].
Qed.

(** C9 (counterexample).  With the two writes pending, the server answers
    the WRITE of the flush with NO_SUCH_FILE: the client reports ENOENT
    (errno 34) and the flush hands the kernel the errno of ENOENT (-2 on
    Linux), not success. *)
Theorem C9_flush_ENOENT_is_reported :
  let e := Client.createError Client.NO_SUCH_FILE "No such file"
             (mkInfo "write" None (Some handle42) []) in
  code e = Some "ENOENT" /\ errno e = Some 34 /\
  snd (Fuse.flush linuxErrno (statusServer Client.NO_SUCH_FILE "No such file")
                  twoWrites "/f" 42)
    = Fuse.Cb (Fuse.mkCb (-2) Fuse.NoValue) /\
  snd (Fuse.flush linuxErrno (statusServer Client.NO_SUCH_FILE "No such file")
                  twoWrites "/f" 42)
    <> Fuse.cb0.
Proof. vm_compute. repeat split. discriminate. Qed.

(** C9 (amended).  When a write of a flush fails with the error [e], the
    flush reports success exactly when [e.errno] is -2, and otherwise
    hands the kernel [getErrno(e)].  For the errors of the client's
    taxonomy, errno -2 is EFAILURE (status OK, FAILURE or BAD_MESSAGE): a
    flush that fails with EFAILURE is logged and reported as a success,
    while a flush that fails with ENOENT (errno 34) is propagated like
    every other error. *)
Theorem C9_flush_error_handling
    (errnoTable : string -> option Z)
    (respond : list Fuse.SftpCall -> Fuse.SftpCall -> Fuse.Reply)
    (s s' : Fuse.SftpFuse) (path : string) (fd : Z)
    (recs : list Fuse.WriteRec) (e : SftpError) :
  Fuse.state s = Fuse.Ready ->
  Fuse.data s !! fd = Some recs ->
  Fuse.flushLoop respond (List.length recs)
    (Fuse.clearCache (Fuse.setData s (base.delete fd (Fuse.data s))) path)
    fd recs = (s', Some e) ->
  Fuse.flush errnoTable respond s path fd =
    (s', if bool_decide (errno e = Some (-2)) then Fuse.cb0
         else Fuse.Cb (Fuse.mkCb (Fuse.getErrno errnoTable e) Fuse.NoValue))
  /\ (forall (nativeCode : Z) (msg : string) (inf : SftpCommandInfo),
        e = Client.createError nativeCode msg inf ->
        (nativeCode = Client.OK \/ nativeCode = Client.FAILURE
         \/ nativeCode = Client.BAD_MESSAGE) ->
        code e = Some "EFAILURE" /\
        Fuse.flush errnoTable respond s path fd = (s', Fuse.cb0))
  /\ (forall (nativeCode : Z) (msg : string) (inf : SftpCommandInfo),
        e = Client.createError nativeCode msg inf ->
        ~ (nativeCode = Client.OK \/ nativeCode = Client.FAILURE
           \/ nativeCode = Client.BAD_MESSAGE) ->
        Fuse.flush errnoTable respond s path fd =
          (s', Fuse.Cb (Fuse.mkCb (Fuse.getErrno errnoTable e) Fuse.NoValue)))
  /\ (forall (msg : string) (inf : SftpCommandInfo),
        e = Client.createError Client.NO_SUCH_FILE msg inf ->
        code e = Some "ENOENT" /\ errno e = Some 34 /\
        Fuse.flush errnoTable respond s path fd =
          (s', Fuse.Cb (Fuse.mkCb (Fuse.getErrno errnoTable e) Fuse.NoValue))).
Proof.
  intros Hready Hdata Hloop.
  assert (H : Fuse.flush errnoTable respond s path fd =
    (s', if bool_decide (errno e = Some (-2)) then Fuse.cb0
         else Fuse.Cb (Fuse.mkCb (Fuse.getErrno errnoTable e) Fuse.NoValue))).
  { unfold Fuse.flush. rewrite (isNotReady_ready s Hready), Hdata, Hloop.
    now destruct (bool_decide (errno e = Some (-2))). }
  split; [exact H |]. split; [| split].
  - intros nativeCode msg inf -> Hc. split.
    + unfold Client.createError, Client.errorCode.
      destruct Hc as [-> | [-> | ->]]; reflexivity.
    + rewrite H, bool_decide_eq_true_2; [reflexivity |].
      now apply createError_errno_minus2.
  - intros nativeCode msg inf -> Hc.
    rewrite H, bool_decide_eq_false_2; [reflexivity |].
    intros He. apply Hc. now apply createError_errno_minus2 in He.
  - intros msg inf ->. split; [reflexivity |]. split; [reflexivity |].
    rewrite H, bool_decide_eq_false_2; [reflexivity |]. discriminate.
Qed.

Lemma C9_flush_error_handling_witness :
  Fuse.flush linuxErrno (statusServer Client.FAILURE "Failure") twoWrites "/f" 42
    = (Fuse.setSftp
         (Fuse.clearCache
            (Fuse.setData twoWrites (base.delete 42 (Fuse.data twoWrites))) "/f")
         [Fuse.CWrite 42 (bytesHello ++ bytesWorld) 0],
       Fuse.cb0).
Proof.
  exact (proj1 (C9_flush_error_handling linuxErrno
                  (statusServer Client.FAILURE "Failure")
                  twoWrites
                  (Fuse.setSftp
                     (Fuse.clearCache
                        (Fuse.setData twoWrites
                           (base.delete 42 (Fuse.data twoWrites))) "/f")
                     [Fuse.CWrite 42 (bytesHello ++ bytesWorld) 0])
                  "/f" 42
                  [Fuse.mkRec bytesHello 0; Fuse.mkRec bytesWorld 5]
                  (Client.createError Client.FAILURE "Failure"
                     (mkInfo "write" None (Some handle42) []))
                  eq_refl eq_refl eq_refl)).
Defined.

(** ** SftpFuse: cache invalidation *)



Lemma absent_has {V} (c : option (Fuse.TTLCache V)) (p : string) (t : Z) :
  absent c p -> Fuse.hasOpt c p t = false.
Proof.
  destruct c as [c|]; cbn; [| reflexivity].
  unfold Fuse.has. now intros ->.
Qed.

(** What [clearCache] does to each field. *)
Lemma clearCache_fields (s : Fuse.SftpFuse) (p : string) :
  Fuse.attrCache (Fuse.clearCache s p) = Fuse.deleteOpt (Fuse.attrCache s) p /\
  Fuse.dirCache (Fuse.clearCache s p) =
    Fuse.deleteOpt (Fuse.deleteOpt (Fuse.dirCache s) p) (NodePath.dirname p) /\
  Fuse.linkCache (Fuse.clearCache s p) = Fuse.linkCache s /\
  Fuse.state (Fuse.clearCache s p) = Fuse.state s /\
  Fuse.data (Fuse.clearCache s p) = Fuse.data s /\
  Fuse.sftp (Fuse.clearCache s p) = Fuse.sftp s /\
  Fuse.readTracking (Fuse.clearCache s p) = Fuse.readTracking s.
Proof.
  unfold Fuse.clearCache. fuse_simpl.
  destruct (Fuse.dirCache s) as [d|] eqn:E; fuse_simpl; rewrite ?E;
    repeat split; reflexivity.
Qed.

Lemma clearCache_data (s : Fuse.SftpFuse) (p : string) :
  Fuse.data (Fuse.clearCache s p) = Fuse.data s.
Proof. apply clearCache_fields. Qed.

Lemma clearCache_sftp (s : Fuse.SftpFuse) (p : string) :
  Fuse.sftp (Fuse.clearCache s p) = Fuse.sftp s.
Proof. apply clearCache_fields. Qed.

Lemma clearCache_state (s : Fuse.SftpFuse) (p : string) :
  Fuse.state (Fuse.clearCache s p) = Fuse.state s.
Proof. apply clearCache_fields. Qed.

(** Reading a field after a field has been set. *)
Lemma data_setData s d : Fuse.data (Fuse.setData s d) = d.
Proof. reflexivity. Qed.
Lemma data_setSftp s l : Fuse.data (Fuse.setSftp s l) = Fuse.data s.
Proof. reflexivity. Qed.
Lemma data_setReadTracking s c :
  Fuse.data (Fuse.setReadTracking s c) = Fuse.data s.
Proof. reflexivity. Qed.
Lemma sftp_setData s d : Fuse.sftp (Fuse.setData s d) = Fuse.sftp s.
Proof. reflexivity. Qed.
Lemma sftp_setSftp s l : Fuse.sftp (Fuse.setSftp s l) = l.
Proof. reflexivity. Qed.
Lemma sftp_setReadTracking s c :
  Fuse.sftp (Fuse.setReadTracking s c) = Fuse.sftp s.
Proof. reflexivity. Qed.
Lemma state_setData s d : Fuse.state (Fuse.setData s d) = Fuse.state s.
Proof. reflexivity. Qed.
Lemma state_setReadTracking s c :
  Fuse.state (Fuse.setReadTracking s c) = Fuse.state s.
Proof. reflexivity. Qed.

Create Rewrite HintDb fuse_fields.

#[local] Hint Rewrite data_setData data_setSftp data_setReadTracking
  sftp_setData sftp_setSftp sftp_setReadTracking state_setData
  state_setReadTracking clearCache_data clearCache_sftp clearCache_state
  : fuse_fields.














Lemma sameCaches_refl (s : Fuse.SftpFuse) : sameCaches s s.
Proof. repeat split. Qed.






(** chmod leaves the directory cache alone: the entry of the parent
    directory survives it. *)
Example chmod_keeps_dir_entry :
  let s := Fuse.setDirCache freshFuse
             (Some (Fuse.set (Fuse.newCache 20000) "/d" ["f"] 0)) in
  Fuse.hasOpt (Fuse.dirCache (fst (Fuse.chmod linuxErrno okServer s "/d/f" 420)))
              "/d" 1000 = true
  /\ Fuse.hasOpt (Fuse.dirCache (fst (Fuse.unlink linuxErrno okServer s "/d/f")))
                 "/d" 1000 = false.
Proof. vm_compute. split; reflexivity. Qed.

(** ** SftpFuse: write coalescing *)

Lemma setSftp_nil (s : Fuse.SftpFuse) : Fuse.setSftp s (Fuse.sftp s ++ []) = s.
Proof. destruct s. unfold Fuse.setSftp. fuse_simpl. now rewrite app_nil_r. Qed.

Lemma MAX_WRITE_pos : 0 < Fuse.MAX_WRITE_BLOCK_LENGTH.
Proof. reflexivity. Qed.

Lemma bufferLength_app (a b : Fuse.Buffer) :
  Fuse.bufferLength (a ++ b) = Fuse.bufferLength a + Fuse.bufferLength b.
Proof. unfold Fuse.bufferLength. rewrite length_app. lia. Qed.

(** [writeToDisk] when no write fails: the chunks of the rest of the
    buffer go out one after the other. *)
Lemma writeToDiskLoop_ok
    (respond : list Fuse.SftpCall -> Fuse.SftpCall -> Fuse.Reply)
    (fd : Z) (buffer : Fuse.Buffer) :
  acceptsWrites respond ->
  forall (fuel k : nat) (s : Fuse.SftpFuse) (pos : Z),
    (List.length (skipn k buffer) <= fuel)%nat ->
    Fuse.writeToDiskLoop respond fuel s fd buffer
      (Fuse.bufferLength (skipn k buffer)) (Z.of_nat k) pos =
    (Fuse.setSftp s (Fuse.sftp s ++ chunksSpec fuel fd (skipn k buffer) pos),
     None).
Proof.
  intros Hok. pose proof MAX_WRITE_pos as Hmax.
  induction fuel as [|fuel IH]; intros k s pos Hfuel.
  - destruct (skipn k buffer) as [|x rem] eqn:E; [| cbn in Hfuel; lia].
    cbn. now rewrite setSftp_nil.
  - destruct (skipn k buffer) as [|x rem] eqn:E.
    + cbn. now rewrite setSftp_nil.
    + cbn [Fuse.writeToDiskLoop chunksSpec].
      set (len := Fuse.bufferLength (x :: rem)).
      assert (Hlen : len = Z.of_nat (S (List.length rem))) by reflexivity.
      rewrite (proj2 (Z.ltb_lt 0 len)) by lia.
      set (n := Z.min Fuse.MAX_WRITE_BLOCK_LENGTH len).
      assert (Hn : 1 <= n <= len) by (unfold n; lia).
      unfold Fuse.callSftp.
      destruct (Hok (Fuse.sftp s) fd
                  (Fuse.slice buffer (Z.of_nat k) (Z.of_nat k + n)) pos)
        as [v ->].
      assert (Hslice : Fuse.slice buffer (Z.of_nat k) (Z.of_nat k + n)
                       = firstn (Z.to_nat n) (x :: rem)).
      { unfold Fuse.slice. rewrite Nat2Z.id, E. f_equal. lia. }
      rewrite Hslice.
      assert (Hskip : skipn (k + Z.to_nat n) buffer
                      = skipn (Z.to_nat n) (x :: rem)).
      { rewrite <- E, skipn_skipn. f_equal. lia. }
      specialize (IH (k + Z.to_nat n)%nat
                     (Fuse.setSftp s (Fuse.sftp s ++
                        [Fuse.CWrite fd (firstn (Z.to_nat n) (x :: rem)) pos]))
                     (pos + n)).
      rewrite Hskip in IH.
      assert (Hrest : Fuse.bufferLength (skipn (Z.to_nat n) (x :: rem)) = len - n).
      { unfold Fuse.bufferLength. rewrite length_skipn. fold len.
        rewrite Hlen in *. cbn [List.length]. lia. }
      rewrite Hrest in IH.
      replace (Z.of_nat (k + Z.to_nat n)) with (Z.of_nat k + n) in IH by lia.
      rewrite IH.
      * unfold Fuse.setSftp. fuse_simpl. now rewrite <- app_assoc.
      * rewrite length_skipn. cbn [List.length] in *. lia.
Qed.

Lemma writeToDisk_ok
    (respond : list Fuse.SftpCall -> Fuse.SftpCall -> Fuse.Reply)
    (s : Fuse.SftpFuse) (fd : Z) (buffer : Fuse.Buffer) (pos : Z) :
  acceptsWrites respond ->
  Fuse.writeToDisk respond s fd buffer (Fuse.bufferLength buffer) pos =
    (Fuse.setSftp s (Fuse.sftp s ++
       chunksSpec (List.length buffer) fd buffer pos), None).
Proof.
  intros Hok. unfold Fuse.writeToDisk.
  rewrite Z.min_id. unfold Fuse.bufferLength at 1. rewrite Nat2Z.id.
  exact (writeToDiskLoop_ok respond fd buffer Hok (List.length buffer) 0 s pos
           (Nat.le_refl _)).
Qed.

(** The chunks of a buffer: none is longer than 1 MiB, they follow one
    another from the position of the buffer, and together they are the
    buffer. *)
Lemma chunksSpec_props (fuel : nat) (fd : Z) (buffer : Fuse.Buffer) (pos : Z) :
  (List.length buffer <= fuel)%nat ->
  Forall (fun c => writeLength c <= Fuse.MAX_WRITE_BLOCK_LENGTH)
         (chunksSpec fuel fd buffer pos)
  /\ wellPlaced pos (chunksSpec fuel fd buffer pos)
  /\ concat (map writeData (chunksSpec fuel fd buffer pos)) = buffer.
Proof.
  pose proof MAX_WRITE_pos as Hmax.
  revert buffer pos. induction fuel as [|fuel IH]; intros buffer pos Hfuel.
  - destruct buffer; [cbn; auto | cbn in Hfuel; lia].
  - destruct buffer as [|x rem]; [cbn; auto |].
    cbn [chunksSpec].
    set (len := Fuse.bufferLength (x :: rem)).
    assert (Hlen : len = Z.of_nat (S (List.length rem))) by reflexivity.
    set (n := Z.min Fuse.MAX_WRITE_BLOCK_LENGTH len).
    assert (Hn : 1 <= n <= len) by (unfold n; lia).
    assert (Hfirst : Fuse.bufferLength (firstn (Z.to_nat n) (x :: rem)) = n).
    { unfold Fuse.bufferLength. rewrite length_firstn. cbn [List.length]. lia. }
    destruct (IH (skipn (Z.to_nat n) (x :: rem)) (pos + n)) as (F & W & C).
    { rewrite length_skipn. cbn [List.length] in *. lia. }
    split; [| split].
    + constructor; [cbn [writeLength]; rewrite Hfirst; unfold n; lia | exact F].
    + cbn [wellPlaced]. rewrite Hfirst. split; [reflexivity | exact W].
    + cbn [map concat writeData]. rewrite C. apply firstn_skipn.
Qed.

(** The inner loop of [flush] compares the position of the next record
    with the end of the buffer built so far; the specification compares
    it with the end of the prior record.  On a run these are the same
    place. *)
Lemma flushRuns_coalesceRun (rest : list Fuse.WriteRec) :
  forall (acc : Fuse.Buffer) (start : Z) (prev : Fuse.WriteRec) (fuel : nat),
    start + Fuse.bufferLength acc =
      Fuse.position prev + Fuse.bufferLength (Fuse.buffer prev) ->
    (List.length rest <= fuel)%nat ->
    Fuse.mkRec (fst (Fuse.combine acc start rest)) start
      :: flushRuns fuel (snd (Fuse.combine acc start rest))
    = coalesceRun start acc prev rest.
Proof.
  induction rest as [|next rest IH]; intros acc start prev fuel Hinv Hfuel.
  - cbn. now destruct fuel.
  - cbn [Fuse.combine coalesceRun].
    replace (Fuse.bufferLength acc + start)
      with (Fuse.position prev + Fuse.bufferLength (Fuse.buffer prev)) by lia.
    destruct (Fuse.position next =? _) eqn:E.
    + apply IH; [| cbn in Hfuel; lia].
      rewrite bufferLength_app. apply Z.eqb_eq in E. lia.
    + cbn [fst snd]. f_equal.
      destruct fuel as [|fuel]; [cbn in Hfuel; lia |].
      cbn [flushRuns].
      specialize (IH (Fuse.buffer next) (Fuse.position next) next fuel
                     eq_refl ltac:(cbn in Hfuel; lia)).
      destruct (Fuse.combine (Fuse.buffer next) (Fuse.position next) rest)
        as [b rest'].
      exact IH.
Qed.

Lemma flushRuns_spec (recs : list Fuse.WriteRec) :
  flushRuns (List.length recs) recs = coalesceSpec recs.
Proof.
  destruct recs as [|r rest]; [reflexivity |].
  cbn [List.length flushRuns coalesceSpec].
  pose proof (flushRuns_coalesceRun rest (Fuse.buffer r) (Fuse.position r) r
                (List.length rest) eq_refl (Nat.le_refl _)) as H.
  destruct (Fuse.combine (Fuse.buffer r) (Fuse.position r) rest) as [b rest'].
  exact H.
Qed.

(** [flush]'s loops when no write fails. *)
Lemma flushLoop_ok
    (respond : list Fuse.SftpCall -> Fuse.SftpCall -> Fuse.Reply) (fd : Z) :
  acceptsWrites respond ->
  forall (fuel : nat) (recs : list Fuse.WriteRec) (s : Fuse.SftpFuse),
    Fuse.flushLoop respond fuel s fd recs =
      (Fuse.setSftp s
         (Fuse.sftp s ++
            flat_map (fun r => chunksSpec (List.length (Fuse.buffer r)) fd
                                          (Fuse.buffer r) (Fuse.position r))
                     (flushRuns fuel recs)),
       None).
Proof.
  intros Hok. induction fuel as [|fuel IH]; intros recs s.
  - destruct recs; cbn; now rewrite setSftp_nil.
  - destruct recs as [|r rest]; [cbn; now rewrite setSftp_nil |].
    cbn [Fuse.flushLoop flushRuns].
    destruct (Fuse.combine (Fuse.buffer r) (Fuse.position r) rest) as [b rest'].
    rewrite (writeToDisk_ok respond s fd b (Fuse.position r) Hok).
    rewrite IH. cbn [flat_map Fuse.buffer Fuse.position].
    unfold Fuse.setSftp. fuse_simpl. now rewrite <- app_assoc.
Qed.

(** A flush in the ready state when no write fails: the pending records
    leave the buffer and go out as the chunks of the coalesced runs. *)
Lemma flush_ok
    (errnoTable : string -> option Z)
    (respond : list Fuse.SftpCall -> Fuse.SftpCall -> Fuse.Reply)
    (s : Fuse.SftpFuse) (path : string) (fd : Z) (recs : list Fuse.WriteRec) :
  acceptsWrites respond ->
  Fuse.state s = Fuse.Ready ->
  Fuse.data s !! fd = Some recs ->
  Fuse.flush errnoTable respond s path fd =
    (Fuse.setSftp
       (Fuse.clearCache (Fuse.setData s (base.delete fd (Fuse.data s))) path)
       (Fuse.sftp s ++ writesSpec fd recs),
     Fuse.cb0).
Proof.
  intros Hok Hready Hdata. unfold Fuse.flush.
  rewrite (isNotReady_ready s Hready), Hdata.
  rewrite (flushLoop_ok respond fd Hok), flushRuns_spec.
  destruct (clearCache_fields (Fuse.setData s (base.delete fd (Fuse.data s))) path)
    as (_ & _ & _ & _ & _ & -> & _).
  reflexivity.
Qed.

(** Every write of a flush carries at most 1 MiB. *)
Lemma writesSpec_bounded (fd : Z) (recs : list Fuse.WriteRec) :
  Forall (fun c => writeLength c <= Fuse.MAX_WRITE_BLOCK_LENGTH)
         (writesSpec fd recs).
Proof.
  unfold writesSpec. induction (coalesceSpec recs) as [|r runs IH];
    cbn [flat_map]; [constructor |].
  apply Forall_app. split; [| exact IH].
  now apply chunksSpec_props.
Qed.

(** C7 (counterexample).  With the two writes "hello" at 0 and " world"
    at 5 pending on descriptor 42, [release] closes the handle and
    nothing else: no WRITE goes to the server and the records stay in the
    buffer. *)
Theorem C7_release_does_not_flush :
  Fuse.data twoWrites !! 42 =
    Some [Fuse.mkRec bytesHello 0; Fuse.mkRec bytesWorld 5] /\
  Fuse.sftp (fst (Fuse.release linuxErrno okServer twoWrites "/f" 42)) =
    [Fuse.CClose 42] /\
  Fuse.data (fst (Fuse.release linuxErrno okServer twoWrites "/f" 42)) !! 42 =
    Some [Fuse.mkRec bytesHello 0; Fuse.mkRec bytesWorld 5] /\
  Fuse.sftp (fst (Fuse.flush linuxErrno okServer twoWrites "/f" 42)) =
    [Fuse.CWrite 42 (bytesHello ++ bytesWorld) 0].
Proof. vm_compute. repeat split. Qed.

(** C7 (amended).  In the ready state, with a server that accepts the
    writes: each write appends its (bytes, position) record to the buffer
    of the descriptor and sends nothing, unless more than 50 records have
    accumulated, in which case the buffer is flushed; flush and fsync
    take the records out of the buffer, concatenate adjacent contiguous
    records (the next record's position equals the prior record's
    position plus its length) and write each resulting buffer in chunks
    of at most 1 MiB; release does not flush: it only closes the handle
    and leaves the buffer as it is. *)
Theorem C7_write_coalescing
    (errnoTable : string -> option Z)
    (respond : list Fuse.SftpCall -> Fuse.SftpCall -> Fuse.Reply)
    (s : Fuse.SftpFuse) (path : string) (fd : Z)
    (buffer : Fuse.Buffer) (length position : Z) :
  Fuse.state s = Fuse.Ready ->
  acceptsWrites respond ->
  (Fuse.data s !! fd = None ->
     Fuse.data (fst (Fuse.write errnoTable respond s path fd buffer length position))
       !! fd = Some [Fuse.mkRec (Fuse.slice buffer 0 length) position]
     /\ Fuse.sftp (fst (Fuse.write errnoTable respond s path fd buffer length position))
        = Fuse.sftp s
     /\ snd (Fuse.write errnoTable respond s path fd buffer length position)
        = Fuse.Cb (Fuse.mkCb length Fuse.NoValue))
  /\ (forall recs : list Fuse.WriteRec,
     Fuse.data s !! fd = Some recs ->
     (List.length recs < 50)%nat ->
     Fuse.data (fst (Fuse.write errnoTable respond s path fd buffer length position))
       !! fd = Some (recs ++ [Fuse.mkRec (Fuse.slice buffer 0 length) position])
     /\ Fuse.sftp (fst (Fuse.write errnoTable respond s path fd buffer length position))
        = Fuse.sftp s
     /\ snd (Fuse.write errnoTable respond s path fd buffer length position)
        = Fuse.Cb (Fuse.mkCb length Fuse.NoValue))
  /\ (forall recs : list Fuse.WriteRec,
     Fuse.data s !! fd = Some recs ->
     (50 <= List.length recs)%nat ->
     Fuse.data (fst (Fuse.write errnoTable respond s path fd buffer length position))
       !! fd = None
     /\ Fuse.sftp (fst (Fuse.write errnoTable respond s path fd buffer length position))
        = Fuse.sftp s ++
            writesSpec fd
              (recs ++ [Fuse.mkRec (Fuse.slice buffer 0 length) position])
     /\ snd (Fuse.write errnoTable respond s path fd buffer length position)
        = Fuse.Cb (Fuse.mkCb length Fuse.NoValue))
  /\ (forall recs : list Fuse.WriteRec,
     Fuse.data s !! fd = Some recs ->
     Fuse.data (fst (Fuse.flush errnoTable respond s path fd)) !! fd = None
     /\ Fuse.sftp (fst (Fuse.flush errnoTable respond s path fd))
        = Fuse.sftp s ++ writesSpec fd recs
     /\ snd (Fuse.flush errnoTable respond s path fd) = Fuse.cb0
     /\ Fuse.fsync errnoTable respond s path fd
        = Fuse.flush errnoTable respond s path fd
     /\ Forall (fun c => writeLength c <= Fuse.MAX_WRITE_BLOCK_LENGTH)
               (writesSpec fd recs))
  /\ (Fuse.data (fst (Fuse.release errnoTable respond s path fd)) = Fuse.data s
     /\ Fuse.sftp (fst (Fuse.release errnoTable respond s path fd))
        = Fuse.sftp s ++ [Fuse.CClose fd]).
Proof.
  intros Hready Hok.
  pose proof (isNotReady_ready s Hready) as Hnr.
  set (rec := Fuse.mkRec (Fuse.slice buffer 0 length) position).
  split; [| split; [| split; [| split]]].
  - intros Hnone. unfold Fuse.write. rewrite Hnr.
    autorewrite with fuse_fields. rewrite Hnone. cbn [fst snd].
    autorewrite with fuse_fields. rewrite lookup_insert_eq. repeat split.
  - intros recs Hsome Hlt. unfold Fuse.write. rewrite Hnr.
    autorewrite with fuse_fields. rewrite Hsome.
    rewrite (proj2 (Z.ltb_ge 50 _))
      by (rewrite length_app; cbn [List.length]; lia).
    cbn [fst snd]. autorewrite with fuse_fields.
    rewrite lookup_insert_eq. repeat split.
  - intros recs Hsome Hge. unfold Fuse.write. rewrite Hnr.
    autorewrite with fuse_fields. rewrite Hsome.
    rewrite (proj2 (Z.ltb_lt 50 _))
      by (rewrite length_app; cbn [List.length]; lia).
    rewrite (flush_ok errnoTable respond _ path fd (recs ++ [rec]) Hok);
      [| autorewrite with fuse_fields; exact Hready
       | autorewrite with fuse_fields; apply lookup_insert_eq].
    cbn [Fuse.cb0 Fuse.status]. change (0 =? 0) with true. cbv iota.
    cbn [fst snd]. autorewrite with fuse_fields.
    rewrite lookup_delete_eq. repeat split.
  - intros recs Hsome.
    assert (Hfs : Fuse.fsync errnoTable respond s path fd
                  = Fuse.flush errnoTable respond s path fd) by reflexivity.
    rewrite Hfs.
    rewrite (flush_ok errnoTable respond s path fd recs Hok Hready Hsome).
    cbn [fst snd]. autorewrite with fuse_fields.
    rewrite lookup_delete_eq.
    repeat split. apply writesSpec_bounded.
  - unfold Fuse.release. rewrite Hnr. unfold Fuse.callSftp. cbn [fst snd].
    autorewrite with fuse_fields. split; reflexivity.
Qed.

Lemma okServer_accepts : acceptsWrites okServer.
Proof. intros hist fd d p. exists Fuse.VNone. reflexivity. Qed.

Lemma C7_write_coalescing_witness :
  Fuse.sftp (fst (Fuse.flush linuxErrno okServer twoWrites "/f" 42)) =
    Fuse.sftp twoWrites ++
      writesSpec 42 [Fuse.mkRec bytesHello 0; Fuse.mkRec bytesWorld 5].
Proof.
  exact (proj1 (proj2 (proj1 (proj2 (proj2 (proj2
    (C7_write_coalescing linuxErrno okServer twoWrites "/f" 42 [] 0 0
       eq_refl okServer_accepts))))
    [Fuse.mkRec bytesHello 0; Fuse.mkRec bytesWorld 5] eq_refl))).
Defined.

(** The two contiguous writes "hello" at 0 and " world" at 5 reach the
    server as one WRITE of 11 bytes; with a gap they stay two. *)
Example coalesce_hello_world :
  writesSpec 42 [Fuse.mkRec bytesHello 0; Fuse.mkRec bytesWorld 5] =
    [Fuse.CWrite 42 (list_byte_of_string "hello world") 0]
  /\ writesSpec 42 [Fuse.mkRec bytesHello 0; Fuse.mkRec bytesWorld 6] =
    [Fuse.CWrite 42 bytesHello 0; Fuse.CWrite 42 bytesWorld 6].
Proof. vm_compute. split; reflexivity. Qed.
